(** * Household finance tracker: the credit-card installment engine

    A shallow embedding of the allocation logic of [src/App.tsx]
    ([handleSaveTransaction], [handleToggleStatus], the [summary] and
    [currentMonthTransactions] memos, and the form's [invoiceOptions] and
    [handleSubmit]) together with the data model of [src/types.ts].

    Conventions of the model.
    - A JavaScript [Date] is represented by its local calendar fields
      (year, 0-based month, day of month) and the milliseconds elapsed since
      local midnight.  An ISO date string stored in a record is represented
      by the [Date] it denotes, so [parseISO] and [toISOString] are the
      identity.  Time zones and daylight-saving shifts are not modelled;
      the time that [new Date] reads from a stored date text, which the
      sorts compare, is a parameter ([DateText]).
    - A JavaScript [number] holding an amount is kept abstract: the
      development is parametric in a [JsNumber] interface and never relies
      on a law of arithmetic.  Counts and days of month are integers ([Z]).
    - [uuidv4] draws from a stream of identifiers, threaded through a small
      state monad.
    - A property that may be [undefined] is an [option]. *)

From Stdlib Require Import ZArith List String Bool Lia Permutation Sorted QArith.
From Stdlib Require Import DecimalString.
Import ListNotations.

Local Open Scope Z_scope.

(** ** Abstract JavaScript numbers *)

Class JsNumber (number : Type) : Type := {
  nzero : number;                       (* the literal 0 *)
  nadd : number -> number -> number;    (* a + b *)
  nsub : number -> number -> number;    (* a - b *)
  ndiv : number -> number -> number;    (* a / b *)
  ofZ : Z -> number;                    (* an integer-valued number *)
  truthy : number -> bool;              (* false on 0, -0 and NaN *)
  parseFloat : string -> number
}.

(** ** Calendar dates *)

Module JsDate.

Record Date : Type := mkDate {
  year : Z;
  month : Z;      (* 0 = January ... 11 = December, as [getMonth] *)
  day : Z;        (* day of month, as [getDate] *)
  millis : Z      (* milliseconds since local midnight *)
}.

Definition isLeapYear (y : Z) : bool :=
  ((y mod 4 =? 0) && negb (y mod 100 =? 0)) || (y mod 400 =? 0).

Definition daysInMonth (y m : Z) : Z :=
  if m =? 1 then (if isLeapYear y then 29 else 28)
  else if (m =? 3) || (m =? 5) || (m =? 8) || (m =? 10) then 30
  else 31.

Definition nextMonth (y m : Z) : Z * Z :=
  if m =? 11 then (y + 1, 0) else (y, m + 1).

Definition prevMonth (y m : Z) : Z * Z :=
  if m =? 0 then (y - 1, 11) else (y, m - 1).

(** A well-formed calendar date: what every JavaScript [Date] denotes. *)
Definition valid (d : Date) : Prop :=
  0 <= month d < 12 /\ 1 <= day d <= daysInMonth (year d) (month d).

(** Day [d] counted from the first of month [m] of year [y], brought back
    into a real month: the carrying that ECMAScript's MakeDay performs on a
    day of month that is out of range. *)
Fixpoint rollDays (fuel : nat) (y m d : Z) : Z * Z * Z :=
  match fuel with
  | O => (y, m, d)
  | S k =>
      if d <? 1 then
        let '(y', m') := prevMonth y m in
        rollDays k y' m' (d + daysInMonth y' m')
      else if daysInMonth y m <? d then
        let '(y', m') := nextMonth y m in
        rollDays k y' m' (d - daysInMonth y m)
      else (y, m, d)
  end.

Definition makeDay (y m d : Z) : Z * Z * Z :=
  rollDays (S (Z.to_nat (Z.abs d))) (y + m / 12) (m mod 12) d.

(** [new Date(y, m, d)]: local midnight of the normalised date.  A year
    between 0 and 99 is read as 1900 + year. *)
Definition newDate (y m d : Z) : Date :=
  let yr := if (0 <=? y) && (y <=? 99) then 1900 + y else y in
  let '(y', m', d') := makeDay yr m d in
  mkDate y' m' d' 0.

Definition getFullYear (d : Date) : Z := year d.
Definition getMonth (d : Date) : Z := month d.

(** [getTime], up to the constant that the epoch and the time zone add to
    every date; only differences of [getTime] are ever used. *)
Definition daysBeforeYear (y : Z) : Z :=
  365 * y + (y - 1) / 4 - (y - 1) / 100 + (y - 1) / 400.

Definition daysBeforeMonth (y m : Z) : Z :=
  fold_left (fun acc k => acc + daysInMonth y (Z.of_nat k))
            (seq 0 (Z.to_nat m)) 0.

Definition getTime (d : Date) : Z :=
  (daysBeforeYear (year d) + daysBeforeMonth (year d) (month d) + (day d - 1))
  * 86400000 + millis d.

End JsDate.

(** ** The functions used from date-fns *)

Module DateFns.
Import JsDate.

Definition getDate (d : Date) : Z := day d.

(** [addMonths]: the same day of month [n] months later, or the last day of
    that month when it is shorter; the time of day is kept, and adding zero
    months returns the date itself. *)
Definition addMonths (d : Date) (n : Z) : Date :=
  if n =? 0 then d
  else
    let y' := year d + (month d + n) / 12 in
    let m' := (month d + n) mod 12 in
    mkDate y' m' (Z.min (day d) (daysInMonth y' m')) (millis d).

Definition startOfMonth (d : Date) : Date :=
  mkDate (year d) (month d) 1 0.

Definition isSameMonth (a b : Date) : bool :=
  (year a =? year b) && (month a =? month b).

End DateFns.

(** ** Identifier generation *)

(** [uuidv4] is the only effect of the handlers besides the ledger update:
    a computation threads the number of identifiers drawn so far. *)
Definition Gen (A : Type) : Type := nat -> A * nat.

Definition ret {A : Type} (a : A) : Gen A := fun n => (a, n).

Definition bind {A B : Type} (c : Gen A) (k : A -> Gen B) : Gen B :=
  fun n => let '(a, n') := c n in k a n'.

Declare Scope gen_scope.
Delimit Scope gen_scope with gen.
Notation "x <- c ;; k" := (bind c (fun x => k))
  (at level 61, c at next level, right associativity) : gen_scope.

(** ** Data model ([src/types.ts]) *)

Inductive TransactionType : Type := INCOME | EXPENSE.
Inductive PaymentMethod : Type := CASH_DEBIT | CREDIT_CARD.
Inductive User : Type := STEFFANY | JEAN.
Inductive TransactionStatus : Type := PENDING | COMPLETED.

Record Installments : Type := mkInstallments {
  current : Z;
  total : Z;
  originalTransactionId : option string
}.

Section Ledger.

Context {number : Type} `{JsNumber number}.

Import JsDate DateFns.

Record CreditCard : Type := mkCreditCard {
  card_id : string;
  card_name : string;
  limit : number;
  closingDay : Z;
  dueDay : Z;
  last4Digits : option string
}.

Record BankAccount : Type := mkBankAccount {
  account_id : string;
  account_name : string;
  initialBalance : number;
  currentBalance : number
}.

Record Category : Type := mkCategory {
  category_id : string;
  category_name : string;
  color : option string;
  category_type : TransactionType
}.

Record Transaction : Type := mkTransaction {
  tx_id : string;
  description : string;
  amount : number;
  type : TransactionType;
  status : TransactionStatus;
  date : Date;                    (* accounting / invoice date *)
  purchaseDate : option Date;     (* real date of the purchase *)
  user : User;
  paymentMethod : PaymentMethod;
  categoryId : option string;
  accountId : option string;
  cardId : option string;
  installments : option Installments
}.

Record AppData : Type := mkAppData {
  transactions : list Transaction;
  cards : list CreditCard;
  accounts : list BankAccount;
  categories : list Category
}.

(** The argument of [handleSaveTransaction]:
    [Partial<Transaction> & { installmentCount?, isTotalValue?,
    targetInvoiceDate? }], with the fields the add mode reads. *)
Record FormData : Type := mkFormData {
  fd_type : option TransactionType;
  fd_description : option string;
  fd_amount : option number;
  fd_date : option Date;          (* [None]: absent or the empty string *)
  fd_status : option TransactionStatus;
  fd_categoryId : option string;
  fd_paymentMethod : option PaymentMethod;
  fd_cardId : option string;
  fd_accountId : option string;
  installmentCount : option Z;
  isTotalValue : option bool;
  targetInvoiceDate : option Date (* [None]: absent or the empty string *)
}.

(** ** JavaScript coercions used by the handlers *)

(** Truthiness of an optional string: [undefined] and [''] are falsy. *)
Definition truthyString (s : option string) : bool :=
  match s with
  | Some s => negb (s =? "")%string
  | None => false
  end.

(** A template literal prints an absent value as [undefined]. *)
Definition interpolate (s : option string) : string :=
  match s with
  | Some s => s
  | None => "undefined"
  end.

Definition showZ (z : Z) : string := NilZero.string_of_int (Z.to_int z).

Definition PaymentMethod_eqb (a b : PaymentMethod) : bool :=
  match a, b with
  | CASH_DEBIT, CASH_DEBIT | CREDIT_CARD, CREDIT_CARD => true
  | _, _ => false
  end.

Definition isCreditCard (p : option PaymentMethod) : bool :=
  match p with
  | Some CREDIT_CARD => true
  | _ => false
  end.

(** ** [handleSaveTransaction], add mode *)

Variable uuid : nat -> string.   (* the identifiers [uuidv4] will return *)

Definition uuidv4 : Gen string := fun n => (uuid n, S n).

Local Open Scope gen_scope.

(** [txBase.amount || 0] *)
Definition baseAmount (formData : FormData) : number :=
  match fd_amount formData with
  | Some a => if truthy a then a else nzero
  | None => nzero
  end.

(** [data.cards.find(c => c.id === txBase.cardId)] *)
Definition findCard (cs : list CreditCard) (cid : string) : option CreditCard :=
  find (fun c => (card_id c =? cid)%string) cs.

(** The default calculation of the invoice month: the value of
    [startInvoiceDate] before the card's due day is put into it. *)
Definition defaultInvoiceMonth (purchase : Date) (card : CreditCard) : Date :=
  if closingDay card <=? getDate purchase then addMonths purchase 1
  else purchase.

Definition startInvoiceDate (target : option Date) (purchase : Date)
    (card : CreditCard) : Date :=
  match target with
  | Some selectedMonth =>
      newDate (getFullYear selectedMonth) (getMonth selectedMonth) (dueDay card)
  | None =>
      let s := defaultInvoiceMonth purchase card in
      newDate (getFullYear s) (getMonth s) (dueDay card)
  end.

(** The due date computed by iteration [i] of the loop. *)
Definition dueDate (start : Date) (card : CreditCard) (i : Z) : Date :=
  let targetMonth := addMonths start i in
  newDate (getFullYear targetMonth) (getMonth targetMonth) (dueDay card).

Section Installments.

Variables (txBase : FormData) (card : CreditCard).
Variables (start purchase : Date) (monthlyAmount : number).
Variables (count : Z) (txUser : User) (txStatus : TransactionStatus).

(** The record pushed by iteration [i]; the object literal draws the
    record's own id first and, on the first iteration only, a second id for
    [originalTransactionId]. *)
Definition installment (i : Z) : Gen Transaction :=
  newId <- uuidv4 ;;
  origin <- (if i =? 0 then (o <- uuidv4 ;; ret (Some o)) else ret None) ;;
  ret {| tx_id := newId;
         description :=
           if 1 <? count
           then (interpolate (fd_description txBase) ++ " (" ++ showZ (i + 1)
                 ++ "/" ++ showZ count ++ ")")%string
           else interpolate (fd_description txBase);
         amount := monthlyAmount;
         type := EXPENSE;
         status := txStatus;
         date := dueDate start card i;
         purchaseDate := Some purchase;
         user := txUser;
         paymentMethod := CREDIT_CARD;
         categoryId := fd_categoryId txBase;
         accountId := None;
         cardId := fd_cardId txBase;
         installments :=
           Some {| current := i + 1; total := count;
                   originalTransactionId := origin |} |}.

(** [for (let i = 0; i < installmentCount; i++)]: the iterations from [i]
    on, [remaining] of them. *)
Fixpoint installmentsFrom (remaining : nat) (i : Z) : Gen (list Transaction) :=
  match remaining with
  | O => ret []
  | S k =>
      t <- installment i ;;
      ts <- installmentsFrom k (i + 1) ;;
      ret (t :: ts)
  end.

End Installments.

(** The defaults of the add mode: [installmentCount = 1] and
    [isTotalValue = true] in the destructuring, [new Date()] (here [now])
    for an absent date, [User.STEFFANY] and [TransactionStatus.COMPLETED]
    for an absent user and status. *)
Definition countOf (formData : FormData) : Z :=
  match installmentCount formData with Some n => n | None => 1 end.

Definition totalOf (formData : FormData) : bool :=
  match isTotalValue formData with Some b => b | None => true end.

Definition purchaseOf (now : Date) (formData : FormData) : Date :=
  match fd_date formData with Some d => d | None => now end.

Definition userOf (currentUser : option User) : User :=
  match currentUser with Some u => u | None => STEFFANY end.

Definition statusOf (formData : FormData) : TransactionStatus :=
  match fd_status formData with Some s => s | None => COMPLETED end.

(** [isTotalValue ? (baseAmount / installmentCount) : baseAmount] *)
Definition monthlyAmountOf (formData : FormData) : number :=
  if totalOf formData
  then ndiv (baseAmount formData) (ofZ (countOf formData))
  else baseAmount formData.

(** The record of the cash and debit branch. *)
Definition cashTransaction (currentUser : option User) (now : Date)
    (formData : FormData) (newId : string) : Transaction :=
  {| tx_id := newId;
     description :=
       match fd_description formData with
       | Some s => s
       | None => ""%string
       end;
     amount := baseAmount formData;
     type := match fd_type formData with Some t => t | None => EXPENSE end;
     status := statusOf formData;
     date := purchaseOf now formData;
     purchaseDate := Some (purchaseOf now formData);
     user := userOf currentUser;
     paymentMethod := CASH_DEBIT;
     categoryId := fd_categoryId formData;
     accountId := fd_accountId formData;
     cardId := None;
     installments := None |}.

(** The records the add mode appends ([transactionsToAdd]). *)
Definition transactionsToAdd (currentUser : option User) (now : Date)
    (formData : FormData) (data : AppData) : Gen (list Transaction) :=
  if isCreditCard (fd_paymentMethod formData) && truthyString (fd_cardId formData)
  then
    match findCard (cards data)
                   (match fd_cardId formData with Some c => c | None => "" end)%string
    with
    | Some card =>
        installmentsFrom formData card
          (startInvoiceDate (targetInvoiceDate formData)
                            (purchaseOf now formData) card)
          (purchaseOf now formData) (monthlyAmountOf formData)
          (countOf formData) (userOf currentUser) (statusOf formData)
          (Z.to_nat (countOf formData)) 0
    | None => ret []
    end
  else
    newId <- uuidv4 ;;
    ret [cashTransaction currentUser now formData newId].

(** The add mode is the branch taken when no transaction is being edited.
    The ledger that [setData] updates and the one whose cards are searched
    are the same [data]. *)
Definition handleSaveTransaction (currentUser : option User) (now : Date)
    (formData : FormData) (data : AppData) : Gen AppData :=
  added <- transactionsToAdd currentUser now formData data ;;
  ret {| transactions := transactions data ++ added;
        cards := cards data;
        accounts := accounts data;
        categories := categories data |}.

(** ** [handleToggleStatus] *)

Definition toggle (s : TransactionStatus) : TransactionStatus :=
  match s with
  | PENDING => COMPLETED
  | COMPLETED => PENDING
  end.

Definition withStatus (t : Transaction) (s : TransactionStatus) : Transaction :=
  {| tx_id := tx_id t; description := description t; amount := amount t;
     type := type t; status := s; date := date t;
     purchaseDate := purchaseDate t; user := user t;
     paymentMethod := paymentMethod t; categoryId := categoryId t;
     accountId := accountId t; cardId := cardId t;
     installments := installments t |}.

Definition handleToggleStatus (id : string) (data : AppData) : AppData :=
  {| transactions :=
       map (fun t => if (tx_id t =? id)%string
                     then withStatus t (toggle (status t)) else t)
           (transactions data);
     cards := cards data;
     accounts := accounts data;
     categories := categories data |}.

(** ** Derived views: [currentMonthTransactions] and [summary] *)

(** [Array.prototype.sort] is stable; with a comparator that is a total
    preorder its result is the one of a stable insertion sort. *)
Section Sort.

Variable A : Type.
Variable compare : A -> A -> Z.   (* negative: the first argument goes first *)

Fixpoint insertSorted (x : A) (l : list A) : list A :=
  match l with
  | [] => [x]
  | y :: ys => if compare x y <=? 0 then x :: l else y :: insertSorted x ys
  end.

Definition sortBy (l : list A) : list A := fold_right insertSorted [] l.

End Sort.

(** [new Date(t.date).getTime()], the time that the sorts compare.  The
    model keeps for [date] the calendar date that [parseISO] reads from the
    stored text, not the text itself.  [new Date] reads a text with a time
    of day as [parseISO] does, but a text that holds a day only (the edit
    mode stores the form's date so) as midnight in UTC, where [parseISO]
    reads local midnight.  The time that [new Date] reads is therefore a
    parameter of the model; it is read from the text of [date] alone, which
    a change of status keeps. *)
Class DateText : Type := {
  timeOf : Transaction -> Z;
  timeOf_withStatus : forall t s, timeOf (withStatus t s) = timeOf t
}.

Context `{DateText}.

(** [(a, b) => new Date(b.date).getTime() - new Date(a.date).getTime()] *)
Definition newestFirst (a b : Transaction) : Z := timeOf b - timeOf a.

Definition currentMonthTransactions (ts : list Transaction) (currentDate : Date)
    : list Transaction :=
  sortBy Transaction newestFirst
         (filter (fun t => isSameMonth (date t) currentDate) ts).

(** The four accumulators of the [summary] memo. *)
Record Sums : Type := mkSums {
  sumIncomeReal : number;
  sumExpenseReal : number;
  sumIncomeProjected : number;
  sumExpenseProjected : number
}.

Record Summary : Type := mkSummary {
  incomeReal : number;
  expenseReal : number;
  balanceReal : number;
  balanceProjected : number
}.

(** The body of the [forEach] callback. *)
Definition accumulate (acc : Sums) (t : Transaction) : Sums :=
  let projected :=
    match type t with
    | INCOME =>
        {| sumIncomeReal := sumIncomeReal acc;
           sumExpenseReal := sumExpenseReal acc;
           sumIncomeProjected := nadd (sumIncomeProjected acc) (amount t);
           sumExpenseProjected := sumExpenseProjected acc |}
    | EXPENSE =>
        {| sumIncomeReal := sumIncomeReal acc;
           sumExpenseReal := sumExpenseReal acc;
           sumIncomeProjected := sumIncomeProjected acc;
           sumExpenseProjected := nadd (sumExpenseProjected acc) (amount t) |}
    end in
  match status t with
  | COMPLETED =>
      match type t with
      | INCOME =>
          {| sumIncomeReal := nadd (sumIncomeReal projected) (amount t);
             sumExpenseReal := sumExpenseReal projected;
             sumIncomeProjected := sumIncomeProjected projected;
             sumExpenseProjected := sumExpenseProjected projected |}
      | EXPENSE =>
          {| sumIncomeReal := sumIncomeReal projected;
             sumExpenseReal := nadd (sumExpenseReal projected) (amount t);
             sumIncomeProjected := sumIncomeProjected projected;
             sumExpenseProjected := sumExpenseProjected projected |}
      end
  | PENDING => projected
  end.

Definition sums (monthTransactions : list Transaction) : Sums :=
  fold_left accumulate monthTransactions
            {| sumIncomeReal := nzero; sumExpenseReal := nzero;
               sumIncomeProjected := nzero; sumExpenseProjected := nzero |}.

Definition summary (monthTransactions : list Transaction) : Summary :=
  let s := sums monthTransactions in
  {| incomeReal := sumIncomeReal s;
     expenseReal := sumExpenseReal s;
     balanceReal := nsub (sumIncomeReal s) (sumExpenseReal s);
     balanceProjected := nsub (sumIncomeProjected s) (sumExpenseProjected s) |}.

(** A running total: the amounts of [l] added to [acc] from left to right. *)
Definition addAmounts (acc : number) (l : list Transaction) : number :=
  fold_left (fun a t => nadd a (amount t)) l acc.

(** The sum of the amounts of a list, added from left to right starting
    from 0: what a claim about [summary] calls the sum over a set of
    transactions. *)
Definition sumAmounts (l : list Transaction) : number := addAmounts nzero l.

Definition isIncome (t : Transaction) : bool :=
  match type t with INCOME => true | EXPENSE => false end.

Definition isCompleted (t : Transaction) : bool :=
  match status t with COMPLETED => true | PENDING => false end.

(** ** The entry form: [invoiceOptions] and [handleSubmit] *)

(** The state of [TransactionForm] that the two functions read.  The text
    of the date input is represented by the date it parses to, [None] when
    it is empty; likewise for the selected invoice. *)
Record FormState : Type := mkFormState {
  st_initialData : bool;          (* whether the [initialData] prop is set *)
  st_type : TransactionType;
  st_description : string;
  st_amount : string;
  st_date : option Date;
  st_paymentMethod : PaymentMethod;
  st_status : TransactionStatus;
  st_cardId : string;
  st_accountId : string;
  st_categoryId : string;
  st_installments : Z;
  st_isTotalValue : bool;
  st_targetInvoiceDate : option Date
}.

Definition invoiceOptions (st : FormState) (cs : list CreditCard) : list Date :=
  if negb (PaymentMethod_eqb (st_paymentMethod st) CREDIT_CARD)
     || (st_cardId st =? "")%string
  then []
  else
    match findCard cs (st_cardId st) with
    | None => []
    | Some card =>
        match st_date st with
        | None => []
        | Some purchase =>
            let baseMonth :=
              if closingDay card <=? getDate purchase
              then addMonths (startOfMonth purchase) 1
              else startOfMonth purchase in
            [baseMonth; addMonths baseMonth 1; addMonths baseMonth 2]
        end
    end.

Definition isExpenseOnCard (st : FormState) : bool :=
  match st_type st, st_paymentMethod st with
  | EXPENSE, CREDIT_CARD => true
  | _, _ => false
  end.

(** [handleSubmit]: [None] when the form refuses to submit, otherwise the
    argument handed to [handleSaveTransaction]. *)
Definition handleSubmit (st : FormState) : option FormData :=
  if (st_amount st =? "")%string || (st_description st =? "")%string then None
  else if isExpenseOnCard st && (st_cardId st =? "")%string then None
  else
    Some {| fd_type := Some (st_type st);
            fd_description := Some (st_description st);
            fd_amount := Some (parseFloat (st_amount st));
            fd_date := st_date st;
            fd_status := Some (st_status st);
            fd_categoryId :=
              if (st_categoryId st =? "")%string then None
              else Some (st_categoryId st);
            fd_paymentMethod :=
              Some (match st_type st with
                    | INCOME => CASH_DEBIT
                    | EXPENSE => st_paymentMethod st
                    end);
            fd_cardId :=
              if isExpenseOnCard st then Some (st_cardId st) else None;
            fd_accountId :=
              match st_type st, st_paymentMethod st with
              | INCOME, _ | _, CASH_DEBIT => Some (st_accountId st)
              | _, _ => None
              end;
            installmentCount :=
              Some (if negb (st_initialData st)
                       && PaymentMethod_eqb (st_paymentMethod st) CREDIT_CARD
                    then st_installments st else 1);
            isTotalValue := Some (st_isTotalValue st);
            targetInvoiceDate :=
              if isExpenseOnCard st then st_targetInvoiceDate st else None |}.

(** ** [handleDeleteTransaction] *)

(** [confirmed] is the answer given to the confirmation dialog. *)
Definition handleDeleteTransaction (confirmed : bool) (id : string)
    (data : AppData) : AppData :=
  if confirmed
  then {| transactions :=
            filter (fun t => negb (tx_id t =? id)%string) (transactions data);
          cards := cards data;
          accounts := accounts data;
          categories := categories data |}
  else data.

(** ** The edit mode of [handleSaveTransaction] *)

(** [{ ...t, ...formData }] for the form data of [handleSubmit], which
    carries every one of its keys: the keys of the form data replace those
    of the record, the others ([id], [purchaseDate], [user],
    [installments]) stay.  [None] when a key that a record of this model
    needs holds no value (an emptied date field, for one). *)
Definition mergeEdit (t : Transaction) (formData : FormData)
    : option Transaction :=
  match fd_type formData, fd_description formData, fd_amount formData,
        fd_date formData, fd_status formData, fd_paymentMethod formData with
  | Some ty, Some de, Some am, Some da, Some st, Some pm =>
      Some {| tx_id := tx_id t;
              description := de;
              amount := am;
              type := ty;
              status := st;
              date := da;
              purchaseDate := purchaseDate t;
              user := user t;
              paymentMethod := pm;
              categoryId := fd_categoryId formData;
              accountId := fd_accountId formData;
              cardId := fd_cardId formData;
              installments := installments t |}
  | _, _, _, _, _, _ => None
  end.

(** [prev.transactions.map(t => t.id === editingTransaction.id ? ... : t)] *)
Fixpoint editAll (editingId : string) (formData : FormData)
    (ts : list Transaction) : option (list Transaction) :=
  match ts with
  | [] => Some []
  | t :: rest =>
      match (if (tx_id t =? editingId)%string then mergeEdit t formData
             else Some t),
            editAll editingId formData rest with
      | Some t', Some rest' => Some (t' :: rest')
      | _, _ => None
      end
  end.

(** The branch taken when the transaction being edited has an id. *)
Definition handleSaveTransactionEdit (editingId : string) (formData : FormData)
    (data : AppData) : option AppData :=
  match editAll editingId formData (transactions data) with
  | Some ts =>
      Some {| transactions := ts;
              cards := cards data;
              accounts := accounts data;
              categories := categories data |}
  | None => None
  end.

(** ** [pendingTransactions] *)

Definition isPendingIn (currentDate : Date) (t : Transaction) : bool :=
  match status t with
  | COMPLETED => false
  | PENDING =>
      isSameMonth (match purchaseDate t with Some p => p | None => date t end)
                  currentDate
  end.

Definition pendingTransactions (ts : list Transaction) (currentDate : Date)
    : list Transaction :=
  sortBy Transaction newestFirst (filter (isPendingIn currentDate) ts).

(** ** [futureInvoices] (dashboard) *)

Record FutureInvoice : Type := mkFutureInvoice {
  future_date : Date;
  future_total : number
}.

Definition isCardExpense (t : Transaction) : bool :=
  match type t, paymentMethod t with
  | EXPENSE, CREDIT_CARD => true
  | _, _ => false
  end.

Definition futureInvoices (ts : list Transaction) (currentDate : Date)
    : list FutureInvoice :=
  map (fun offset =>
         let month := addMonths currentDate (Z.of_nat offset) in
         {| future_date := month;
            future_total :=
              sumAmounts
                (filter (fun t => isCardExpense t
                                  && isSameMonth (date t) month) ts) |})
      (seq 0 13).

(** ** [filtered] and [listSummary] (transaction list) *)

(** [o === s] for an optional string [o]. *)
Definition optionIs (o : option string) (s : string) : bool :=
  match o with
  | Some x => (x =? s)%string
  | None => false
  end.

(** The filter state; [None] stands for ['ALL'] in the two typed filters,
    the category and card filters hold ['ALL'] or an id. *)
Record ListFilters : Type := mkListFilters {
  filterMonth : Date;
  filterType : option TransactionType;
  filterStatus : option TransactionStatus;
  filterCategory : string;
  filterCard : string
}.

Definition matchesFilters (f : ListFilters) (t : Transaction) : bool :=
  let sameMonth := isSameMonth (date t) (filterMonth f) in
  let matchType :=
    match filterType f, type t with
    | None, _ | Some INCOME, INCOME | Some EXPENSE, EXPENSE => true
    | _, _ => false
    end in
  let matchStatus :=
    match filterStatus f, status t with
    | None, _ | Some PENDING, PENDING | Some COMPLETED, COMPLETED => true
    | _, _ => false
    end in
  let matchCategory :=
    (filterCategory f =? "ALL")%string
    || optionIs (categoryId t) (filterCategory f) in
  let matchCard :=
    (filterCard f =? "ALL")%string || optionIs (cardId t) (filterCard f) in
  sameMonth && matchType && matchStatus && matchCategory && matchCard.

Definition filtered (ts : list Transaction) (f : ListFilters)
    : list Transaction :=
  sortBy Transaction newestFirst (filter (matchesFilters f) ts).

Record Totals : Type := mkTotals {
  income : number;
  expense : number
}.

Definition addToTotals (acc : Totals) (t : Transaction) : Totals :=
  match type t with
  | INCOME => {| income := nadd (income acc) (amount t); expense := expense acc |}
  | EXPENSE => {| income := income acc; expense := nadd (expense acc) (amount t) |}
  end.

Definition listSummary (l : list Transaction) : Totals :=
  fold_left addToTotals l {| income := nzero; expense := nzero |}.

(** ** [cardTransactions] and [invoiceTotal] (cards view) *)

(** [(a, b) => new Date(a.date).getTime() - new Date(b.date).getTime()] *)
Definition oldestFirst (a b : Transaction) : Z := timeOf a - timeOf b.

Definition matchesCard (selectedCardId : string) (currentDate : Date)
    (category : string) (t : Transaction) : bool :=
  let matchCard :=
    if (selectedCardId =? "ALL")%string
    then PaymentMethod_eqb (paymentMethod t) CREDIT_CARD
    else optionIs (cardId t) selectedCardId in
  let matchDate := isSameMonth (date t) currentDate in
  let matchCat :=
    (category =? "ALL")%string || optionIs (categoryId t) category in
  matchCard && matchDate && matchCat.

Definition cardTransactions (ts : list Transaction) (selectedCardId : string)
    (currentDate : Date) (category : string) : list Transaction :=
  sortBy Transaction oldestFirst
         (filter (matchesCard selectedCardId currentDate category) ts).

Definition invoiceTotal (cardTxs : list Transaction) : number :=
  sumAmounts cardTxs.

(** ** [deleteCard] (settings) *)

Definition deleteCard (id : string) (data : AppData) : AppData :=
  {| transactions := transactions data;
     cards := filter (fun c => negb (card_id c =? id)%string) (cards data);
     accounts := accounts data;
     categories := categories data |}.

(** ** Loading the stored data *)

(** A transaction as an earlier version may have stored it: the status and
    the purchase date can be missing. *)
Record StoredTransaction : Type := mkStoredTransaction {
  s_id : string;
  s_description : string;
  s_amount : number;
  s_type : TransactionType;
  s_status : option TransactionStatus;
  s_date : Date;
  s_purchaseDate : option Date;
  s_user : User;
  s_paymentMethod : PaymentMethod;
  s_categoryId : option string;
  s_accountId : option string;
  s_cardId : option string;
  s_installments : option Installments
}.

(** A stored document that parses; its list of transactions and its list
    of categories can be missing. *)
Record StoredData : Type := mkStoredData {
  s_transactions : option (list StoredTransaction);
  s_cards : list CreditCard;
  s_accounts : list BankAccount;
  s_categories : option (list Category)
}.

(** What the storage key holds when the app starts. *)
Inductive Storage : Type :=
  | NoItem                            (* nothing, or the empty text *)
  | Unparsable                        (* a text that [JSON.parse] rejects *)
  | Document (parsed : StoredData).   (* a text that parses *)

Definition defaultCategories : list Category :=
  [ {| category_id := "cat_1"; category_name := "Alimentação";
       color := Some "#f59e0b"%string; category_type := EXPENSE |};
    {| category_id := "cat_2"; category_name := "Moradia";
       color := Some "#3b82f6"%string; category_type := EXPENSE |};
    {| category_id := "cat_3"; category_name := "Transporte";
       color := Some "#ef4444"%string; category_type := EXPENSE |};
    {| category_id := "cat_4"; category_name := "Lazer";
       color := Some "#8b5cf6"%string; category_type := EXPENSE |};
    {| category_id := "cat_5"; category_name := "Salário";
       color := Some "#10b981"%string; category_type := INCOME |};
    {| category_id := "cat_6"; category_name := "Outros";
       color := Some "#64748b"%string; category_type := EXPENSE |} ].

Definition initialData : AppData :=
  {| transactions := []; cards := []; accounts := [];
     categories := defaultCategories |}.

(** The migration of one stored transaction. *)
Definition migrate (t : StoredTransaction) : Transaction :=
  {| tx_id := s_id t;
     description := s_description t;
     amount := s_amount t;
     type := s_type t;
     status := match s_status t with Some s => s | None => COMPLETED end;
     date := s_date t;
     purchaseDate :=
       Some (match s_purchaseDate t with Some p => p | None => s_date t end);
     user := s_user t;
     paymentMethod := s_paymentMethod t;
     categoryId :=
       if truthyString (s_categoryId t) then s_categoryId t else None;
     accountId := s_accountId t;
     cardId := s_cardId t;
     installments := s_installments t |}.

(** The load effect: the data it sets, or [None] when it throws
    ([JSON.parse] on a text that does not parse, [.map] on a missing list
    of transactions) and sets none. *)
Definition loadData (stored : Storage) : option AppData :=
  match stored with
  | NoItem => Some initialData
  | Unparsable => None
  | Document parsed =>
      match s_transactions parsed with
      | None => None
      | Some ts =>
          Some {| transactions := map migrate ts;
                  cards := s_cards parsed;
                  accounts := s_accounts parsed;
                  categories :=
                    match s_categories parsed with
                    | Some (c :: cs) => c :: cs
                    | _ => defaultCategories
                    end |}
      end
  end.

(** What the save effect writes, as the load effect reads it back. *)
Definition toStored (t : Transaction) : StoredTransaction :=
  {| s_id := tx_id t; s_description := description t; s_amount := amount t;
     s_type := type t; s_status := Some (status t); s_date := date t;
     s_purchaseDate := purchaseDate t; s_user := user t;
     s_paymentMethod := paymentMethod t; s_categoryId := categoryId t;
     s_accountId := accountId t; s_cardId := cardId t;
     s_installments := installments t |}.

Definition saveData (data : AppData) : StoredData :=
  {| s_transactions := Some (map toStored (transactions data));
     s_cards := cards data;
     s_accounts := accounts data;
     s_categories := Some (categories data) |}.

(** ** Matching a receipt to a card ([handleReceiptUpload]) *)

(** [s.endsWith(suffix)] *)
Definition endsWith (s suffix : string) : bool :=
  (String.length suffix <=? String.length s)%nat
  && (substring (String.length s - String.length suffix)
                (String.length suffix) s =? suffix)%string.

(** The card id the receipt draft is given; [last4] is the
    [last4Digits] of the extracted data. *)
Definition matchedCardId (cs : list CreditCard) (last4 : option string)
    : option string :=
  match last4 with
  | Some digits =>
      if negb (digits =? "")%string
      then
        match find (fun c =>
                      match last4Digits c with
                      | Some own => negb (own =? "")%string && endsWith own digits
                      | None => false
                      end) cs with
        | Some card => Some (card_id card)
        | None => None
        end
      else None
  | None => None
  end.


End Ledger.

(** ** The invoice month as the specification words it *)

(** Specification, section 4.1: on or after the closing day the purchase
    belongs to the following month, before it to its own month.  The result
    is the pair (year, 0-based month). *)
Definition resolveInvoiceMonth (purchase : JsDate.Date) (closing : Z) : Z * Z :=
  if closing <=? JsDate.day purchase
  then JsDate.nextMonth (JsDate.year purchase) (JsDate.month purchase)
  else (JsDate.year purchase, JsDate.month purchase).

(** The form data with other installment inputs; used to say that a result
    does not depend on them. *)
Definition withInstallmentInputs {number : Type} (fd : @FormData number)
    (count : option Z) (total : option bool) (target : option JsDate.Date)
    : FormData :=
  {| fd_type := fd_type fd; fd_description := fd_description fd;
     fd_amount := fd_amount fd; fd_date := fd_date fd;
     fd_status := fd_status fd; fd_categoryId := fd_categoryId fd;
     fd_paymentMethod := fd_paymentMethod fd; fd_cardId := fd_cardId fd;
     fd_accountId := fd_accountId fd;
     installmentCount := count; isTotalValue := total;
     targetInvoiceDate := target |}.

(** ** A concrete instance, for examples *)

Module Sample.
Import JsDate.

(** Exact rationals in the role of numbers; [parseFloat] reads a decimal
    integer. *)
#[export] Instance exact : JsNumber Q := {|
  nzero := 0%Q;
  nadd := Qplus;
  nsub := Qminus;
  ndiv := Qdiv;
  ofZ := inject_Z;
  truthy := fun q => negb (Qeq_bool q 0);
  parseFloat := fun s =>
    match NilZero.int_of_string s with
    | Some i => inject_Z (Z.of_int i)
    | None => 0%Q
    end
|}.

(** An environment in UTC, where [new Date] and [parseISO] read every date
    text alike. *)
#[export] Instance utc : @DateText Q := {|
  timeOf := fun t => getTime (date t);
  timeOf_withStatus := fun _ _ => eq_refl
|}.

Definition ids (n : nat) : string := ("id-" ++ showZ (Z.of_nat n))%string.

Definition card (closing due : Z) : @CreditCard Q :=
  {| card_id := "c1"; card_name := "Card"; limit := 5000%Q;
     closingDay := closing; dueDay := due; last4Digits := None |}.

Definition ledger (c : @CreditCard Q) : @AppData Q :=
  {| transactions := []; cards := [c]; accounts := []; categories := [] |}.

Definition noon : Date := mkDate 2024 5 15 43200000.

(** A purchase request as the entry form shapes it. *)
Definition request (ty : TransactionType) (pm : PaymentMethod)
    (cid : option string) (amt : Q) (on : Date) (count : Z) (total : bool)
    : @FormData Q :=
  {| fd_type := Some ty; fd_description := Some "Mercado"%string;
     fd_amount := Some amt; fd_date := Some on; fd_status := Some PENDING;
     fd_categoryId := Some "cat_1"%string; fd_paymentMethod := Some pm;
     fd_cardId := cid; fd_accountId := None;
     installmentCount := Some count; isTotalValue := Some total;
     targetInvoiceDate := None |}.

Definition incomeForm : FormState :=
  {| st_initialData := false; st_type := INCOME;
     st_description := "Salario"; st_amount := "3000";
     st_date := Some (mkDate 2024 0 5 0);
     st_paymentMethod := CREDIT_CARD; st_status := COMPLETED;
     st_cardId := "c1"; st_accountId := "acc_1"; st_categoryId := "cat_5";
     st_installments := 3; st_isTotalValue := true;
     st_targetInvoiceDate := None |}.

(** An expense on the card on file. *)
Definition onCard (on : Date) (count : Z) (total : bool) (amt : Q)
    : @FormData Q :=
  request EXPENSE CREDIT_CARD (Some "c1"%string) amt on count total.

(** What [handleSubmit] makes of [incomeForm]. *)
Definition incomeRequest : @FormData Q :=
  {| fd_type := Some INCOME; fd_description := Some "Salario"%string;
     fd_amount := Some (inject_Z 3000);
     fd_date := Some (mkDate 2024 0 5 0); fd_status := Some COMPLETED;
     fd_categoryId := Some "cat_5"%string;
     fd_paymentMethod := Some CASH_DEBIT; fd_cardId := None;
     fd_accountId := Some "acc_1"%string;
     installmentCount := Some 3; isTotalValue := Some true;
     targetInvoiceDate := None |}.

(** A ledger of two records on the card on file: a pending cash expense
    of 10 January 2024 and a completed card expense billed on 5 February. *)
Definition record (id : string) (st : TransactionStatus) (pm : PaymentMethod)
    (on : Date) (amt : Q) : @Transaction Q :=
  {| tx_id := id; description := "Mercado"; amount := amt; type := EXPENSE;
     status := st; date := on; purchaseDate := Some on; user := JEAN;
     paymentMethod := pm; categoryId := Some "cat_1"%string;
     accountId := None;
     cardId := match pm with
               | CREDIT_CARD => Some "c1"%string
               | CASH_DEBIT => None
               end;
     installments := None |}.

Definition twoRecords : @AppData Q :=
  {| transactions :=
       [record "a" PENDING CASH_DEBIT (mkDate 2024 0 10 0) 40%Q;
        record "b" COMPLETED CREDIT_CARD (mkDate 2024 1 5 0) 60%Q];
     cards := [card 25 5]; accounts := [];
     categories := defaultCategories |}.

(** An expense on the card, as the form holds it while a record is being
    edited, and what [handleSubmit] makes of it. *)
Definition expenseForm : FormState :=
  {| st_initialData := true; st_type := EXPENSE;
     st_description := "Farmacia"; st_amount := "120";
     st_date := Some (mkDate 2024 0 26 0);
     st_paymentMethod := CREDIT_CARD; st_status := PENDING;
     st_cardId := "c1"; st_accountId := "acc_1"; st_categoryId := "";
     st_installments := 6; st_isTotalValue := true;
     st_targetInvoiceDate := None |}.

Definition expenseRequest : @FormData Q :=
  {| fd_type := Some EXPENSE; fd_description := Some "Farmacia"%string;
     fd_amount := Some (inject_Z 120);
     fd_date := Some (mkDate 2024 0 26 0); fd_status := Some PENDING;
     fd_categoryId := None;
     fd_paymentMethod := Some CREDIT_CARD; fd_cardId := Some "c1"%string;
     fd_accountId := None;
     installmentCount := Some 1; isTotalValue := Some true;
     targetInvoiceDate := None |}.

(** A card saved with its last four digits. *)
Definition cardWithDigits : @CreditCard Q :=
  {| card_id := "c2"; card_name := "Visa"; limit := 1000%Q;
     closingDay := 3; dueDay := 10; last4Digits := Some "1234"%string |}.

End Sample.

(** * Properties *)

(** ** Calendar arithmetic *)

Module DateFacts.
Import JsDate DateFns.

Lemma daysInMonth_bounds (y m : Z) : 28 <= daysInMonth y m <= 31.
Proof.
  unfold daysInMonth.
  destruct (m =? 1); [destruct (isLeapYear y); lia|].
  destruct ((m =? 3) || (m =? 5) || (m =? 8) || (m =? 10)); lia.
Qed.

Lemma nextMonth_range (y m : Z) :
  0 <= m < 12 -> 0 <= snd (nextMonth y m) < 12.
Proof.
  intros Hm. unfold nextMonth.
  destruct (Z.eqb_spec m 11); simpl; lia.
Qed.

Lemma prevMonth_range (y m : Z) :
  0 <= m < 12 -> 0 <= snd (prevMonth y m) < 12.
Proof.
  intros Hm. unfold prevMonth.
  destruct (Z.eqb_spec m 0); simpl; lia.
Qed.

(** A day that already lies in its month is left alone. *)
Lemma rollDays_in_month (k : nat) (y m d : Z) :
  1 <= d <= daysInMonth y m -> rollDays (S k) y m d = (y, m, d).
Proof.
  intros [Hlo Hhi]. simpl.
  destruct (Z.ltb_spec d 1); [lia|].
  destruct (Z.ltb_spec (daysInMonth y m) d); [lia|reflexivity].
Qed.

(** The fuel given by [makeDay] is enough: the carrying always ends on a
    real day of a real month. *)
Lemma rollDays_valid (fuel : nat) :
  forall y m d,
    0 <= m < 12 ->
    - 28 * Z.of_nat fuel < d <= daysInMonth y m + 28 * Z.of_nat fuel ->
    let '(y', m', d') := rollDays fuel y m d in
    0 <= m' < 12 /\ 1 <= d' <= daysInMonth y' m'.
Proof.
  induction fuel as [|k IH]; intros y m d Hm Hd.
  - simpl in *. lia.
  - cbn [rollDays].
    destruct (Z.ltb_spec d 1) as [Hlt|Hge].
    + destruct (prevMonth y m) as [y' m'] eqn:E.
      pose proof (prevMonth_range y m Hm) as Hr. rewrite E in Hr. simpl in Hr.
      pose proof (daysInMonth_bounds y' m').
      apply IH; [exact Hr|lia].
    + destruct (Z.ltb_spec (daysInMonth y m) d) as [Hgt|Hle].
      * destruct (nextMonth y m) as [y' m'] eqn:E.
        pose proof (nextMonth_range y m Hm) as Hr. rewrite E in Hr. simpl in Hr.
        pose proof (daysInMonth_bounds y' m').
        pose proof (daysInMonth_bounds y m).
        apply IH; [exact Hr|lia].
      * split; [exact Hm|lia].
Qed.

Lemma newDate_valid (y m d : Z) : valid (newDate y m d).
Proof.
  unfold newDate, makeDay.
  set (yr := if (0 <=? y) && (y <=? 99) then 1900 + y else y).
  pose proof (rollDays_valid (S (Z.to_nat (Z.abs d))) (yr + m / 12) (m mod 12) d)
    as Hv.
  destruct (rollDays _ _ _ d) as [[y' m'] d'].
  apply Hv.
  - apply Z.mod_pos_bound. lia.
  - pose proof (daysInMonth_bounds (yr + m / 12) (m mod 12)). lia.
Qed.

(** Outside the two-digit years, a day of month that exists in the given
    month is taken as it is. *)
Lemma newDate_in_month (y m d : Z) :
  ~ (0 <= y <= 99) -> 0 <= m < 12 -> 1 <= d <= daysInMonth y m ->
  newDate y m d = mkDate y m d 0.
Proof.
  intros Hy Hm Hd. unfold newDate, makeDay.
  replace ((0 <=? y) && (y <=? 99)) with false
    by (symmetry; apply andb_false_iff; lia).
  rewrite Z.div_small, Z.mod_small, Z.add_0_r by lia.
  now rewrite rollDays_in_month.
Qed.

Lemma addMonths_valid (d : Date) (n : Z) : valid d -> valid (addMonths d n).
Proof.
  intros [Hm Hd]. unfold addMonths.
  destruct (n =? 0); [split; assumption|].
  unfold valid; simpl. split.
  - apply Z.mod_pos_bound. lia.
  - pose proof (daysInMonth_bounds (year d + (month d + n) / 12)
                                   ((month d + n) mod 12)). lia.
Qed.

(** [addMonths] moves the (year, month) pair by exactly [n] months. *)
Lemma addMonths_month (d : Date) (n : Z) :
  0 <= month d < 12 ->
  getFullYear (addMonths d n) = year d + (month d + n) / 12 /\
  getMonth (addMonths d n) = (month d + n) mod 12.
Proof.
  intros Hm. unfold addMonths, getFullYear, getMonth.
  destruct (Z.eqb_spec n 0) as [->|_]; simpl; [|split; reflexivity].
  rewrite Z.add_0_r, Z.div_small, Z.mod_small by lia. lia.
Qed.

Lemma nextMonth_addMonths (y m : Z) :
  0 <= m < 12 -> nextMonth y m = (y + (m + 1) / 12, (m + 1) mod 12).
Proof.
  intros Hm. unfold nextMonth.
  destruct (Z.eqb_spec m 11) as [->|Hne]; [reflexivity|].
  rewrite Z.div_small, Z.mod_small by lia. f_equal; lia.
Qed.

End DateFacts.

(** ** The installment loop *)

Section LoopFacts.

Context {number : Type} `{JsNumber number}.
Variable uuid : nat -> string.
Variables (txBase : @FormData number) (card : @CreditCard number).
Variables (start purchase : JsDate.Date) (monthlyAmount : number).
Variables (count : Z) (txUser : User) (txStatus : TransactionStatus).

Local Abbreviation installment_ :=
  (installment uuid txBase card start purchase monthlyAmount count txUser
               txStatus).
Local Abbreviation installmentsFrom_ :=
  (installmentsFrom uuid txBase card start purchase monthlyAmount count
                    txUser txStatus).

(** What one iteration pushes, and how many identifiers it draws. *)
Lemma installment_unfold (i : Z) (n : nat) :
  installment_ i n =
  ({| tx_id := uuid n;
      description :=
        if 1 <? count
        then (interpolate (fd_description txBase) ++ " (" ++ showZ (i + 1)
              ++ "/" ++ showZ count ++ ")")%string
        else interpolate (fd_description txBase);
      amount := monthlyAmount;
      type := EXPENSE;
      status := txStatus;
      date := dueDate start card i;
      purchaseDate := Some purchase;
      user := txUser;
      paymentMethod := CREDIT_CARD;
      categoryId := fd_categoryId txBase;
      accountId := None;
      cardId := fd_cardId txBase;
      installments :=
        Some {| current := i + 1; total := count;
                originalTransactionId :=
                  if i =? 0 then Some (uuid (S n)) else None |} |},
   if i =? 0 then S (S n) else S n).
Proof.
  unfold installment, bind, uuidv4, ret.
  destruct (i =? 0); reflexivity.
Qed.

Lemma installmentsFrom_step (k : nat) (i : Z) (n : nat) :
  installmentsFrom_ (S k) i n =
  (fst (installment_ i n)
     :: fst (installmentsFrom_ k (i + 1) (snd (installment_ i n))),
   snd (installmentsFrom_ k (i + 1) (snd (installment_ i n)))).
Proof.
  cbn [installmentsFrom].
  unfold bind at 1.
  destruct (installment _ _ _ _ _ _ _ _ _ i n) as [t n1].
  cbn [fst snd]. unfold bind at 1.
  destruct (installmentsFrom _ _ _ _ _ _ _ _ _ k (i + 1) n1) as [ts n2].
  reflexivity.
Qed.

Lemma installmentsFrom_length (remaining : nat) :
  forall i n, List.length (fst (installmentsFrom_ remaining i n)) = remaining.
Proof.
  induction remaining as [|k IH]; intros i n; [reflexivity|].
  rewrite installmentsFrom_step. simpl. now rewrite IH.
Qed.

(** Every record of the loop is the one some iteration [j] pushed. *)
Lemma installmentsFrom_In (remaining : nat) :
  forall i n t,
    In t (fst (installmentsFrom_ remaining i n)) ->
    exists j m, i <= j < i + Z.of_nat remaining /\ t = fst (installment_ j m).
Proof.
  induction remaining as [|k IH]; intros i n t Hin; [destruct Hin|].
  rewrite installmentsFrom_step in Hin. destruct Hin as [<-|Hin].
  - exists i, n. split; [lia|reflexivity].
  - destruct (IH _ _ _ Hin) as (j & m & Hj & ->).
    exists j, m. split; [lia|reflexivity].
Qed.

(** The accounting dates of the loop, in order. *)
Lemma installmentsFrom_dates (remaining : nat) :
  forall i n,
    map date (fst (installmentsFrom_ remaining i n)) =
    map (fun k => dueDate start card (i + Z.of_nat k)) (seq 0 remaining).
Proof.
  induction remaining as [|k IH]; intros i n; [reflexivity|].
  rewrite installmentsFrom_step. cbn [fst map seq].
  rewrite IH, installment_unfold. cbn [fst date].
  rewrite Z.add_0_r. f_equal.
  rewrite <- seq_shift, map_map. apply map_ext.
  intros a. f_equal. lia.
Qed.

End LoopFacts.

(** ** The add mode of [handleSaveTransaction] *)

Section Materializer.

Context {number : Type} `{JsNumber number}.
Variable uuid : nat -> string.

Import JsDate DateFns DateFacts.

Lemma truthyString_Some (s : string) :
  s <> ""%string -> truthyString (Some s) = true.
Proof.
  intros Hs. simpl. destruct (String.eqb_spec s ""); [contradiction|reflexivity].
Qed.

(** The branch taken with a credit card that is on file. *)
Lemma transactionsToAdd_card currentUser now (formData : @FormData number)
    data cid card :
  fd_paymentMethod formData = Some CREDIT_CARD ->
  fd_cardId formData = Some cid -> cid <> ""%string ->
  findCard (cards data) cid = Some card ->
  transactionsToAdd uuid currentUser now formData data =
  installmentsFrom uuid formData card
    (startInvoiceDate (targetInvoiceDate formData) (purchaseOf now formData) card)
    (purchaseOf now formData) (monthlyAmountOf formData) (countOf formData)
    (userOf currentUser) (statusOf formData) (Z.to_nat (countOf formData)) 0.
Proof.
  intros Hpm Hcid Hne Hcard. unfold transactionsToAdd.
  rewrite Hpm, Hcid, truthyString_Some by assumption. simpl.
  now rewrite Hcard.
Qed.

(** The branch taken with a credit card that is not on file. *)
Lemma transactionsToAdd_unknown_card currentUser now
    (formData : @FormData number) data cid :
  fd_paymentMethod formData = Some CREDIT_CARD ->
  fd_cardId formData = Some cid -> cid <> ""%string ->
  findCard (cards data) cid = None ->
  transactionsToAdd uuid currentUser now formData data = ret [].
Proof.
  intros Hpm Hcid Hne Hcard. unfold transactionsToAdd.
  rewrite Hpm, Hcid, truthyString_Some by assumption. simpl.
  now rewrite Hcard.
Qed.

(** The cash and debit branch: every request that is not a credit-card
    request with a card id. *)
Lemma transactionsToAdd_cash currentUser now (formData : @FormData number)
    data n :
  isCreditCard (fd_paymentMethod formData)
    && truthyString (fd_cardId formData) = false ->
  transactionsToAdd uuid currentUser now formData data n =
  ([cashTransaction currentUser now formData (uuid n)], S n).
Proof.
  intros Hb. unfold transactionsToAdd. rewrite Hb. reflexivity.
Qed.

Lemma handleSaveTransaction_unfold currentUser now
    (formData : @FormData number) data n :
  handleSaveTransaction uuid currentUser now formData data n =
  ({| transactions :=
        transactions data
        ++ fst (transactionsToAdd uuid currentUser now formData data n);
      cards := cards data;
      accounts := accounts data;
      categories := categories data |},
   snd (transactionsToAdd uuid currentUser now formData data n)).
Proof.
  unfold handleSaveTransaction, bind, ret.
  now destruct (transactionsToAdd uuid currentUser now formData data n).
Qed.

(** The default calculation lands in the month the specification names. *)
Lemma defaultInvoiceMonth_resolve (purchase : Date) (card : @CreditCard number) :
  0 <= month purchase < 12 ->
  (getFullYear (defaultInvoiceMonth purchase card),
   getMonth (defaultInvoiceMonth purchase card)) =
  resolveInvoiceMonth purchase (closingDay card).
Proof.
  intros Hm. unfold defaultInvoiceMonth, resolveInvoiceMonth, getDate.
  destruct (closingDay card <=? day purchase); [|reflexivity].
  destruct (addMonths_month purchase 1 Hm) as [-> ->].
  now rewrite nextMonth_addMonths.
Qed.

Lemma resolveInvoiceMonth_range (purchase : Date) (closing : Z) :
  0 <= month purchase < 12 ->
  0 <= snd (resolveInvoiceMonth purchase closing) < 12.
Proof.
  intros Hm. unfold resolveInvoiceMonth.
  destruct (closing <=? day purchase); [|exact Hm].
  now apply nextMonth_range.
Qed.

(** Without an invoice override, the (year, month) that
    [handleSaveTransaction] hands to the date constructor together with the
    due day, and the month of the first invoice that [invoiceOptions]
    offers, is the purchase's month plus one when the day of the purchase
    is at or after the card's closing day, and the purchase's own month
    otherwise.  The month of the date so built is another matter: see
    [startInvoiceDate_default]. *)
Theorem invoice_month_rule (purchase : Date) (card : @CreditCard number) :
  valid purchase ->
  let s := defaultInvoiceMonth purchase card in
  let r := resolveInvoiceMonth purchase (closingDay card) in
  (getFullYear s, getMonth s) = r /\
  startInvoiceDate None purchase card = newDate (fst r) (snd r) (dueDay card) /\
  (forall st cs,
      st_paymentMethod st = CREDIT_CARD ->
      st_cardId st <> ""%string ->
      findCard cs (st_cardId st) = Some card ->
      st_date st = Some purchase ->
      exists second third,
        invoiceOptions st cs = [mkDate (fst r) (snd r) 1 0; second; third]).
Proof.
  intros [Hm Hd] s r.
  pose proof (defaultInvoiceMonth_resolve purchase card Hm) as Hs.
  fold s r in Hs.
  split; [exact Hs|]. split.
  - unfold startInvoiceDate. fold s. now rewrite <- Hs.
  - intros st cs Hpm Hcid Hcard Hdate. unfold invoiceOptions.
    rewrite Hpm, Hcard, Hdate. simpl.
    destruct (String.eqb_spec (st_cardId st) ""); [contradiction|].
    eexists _, _. f_equal.
    subst r. unfold resolveInvoiceMonth, getDate.
    destruct (closingDay card <=? day purchase); [|reflexivity].
    rewrite nextMonth_addMonths by exact Hm.
    unfold addMonths, startOfMonth. simpl.
    pose proof (daysInMonth_bounds (year purchase + (month purchase + 1) / 12)
                                   ((month purchase + 1) mod 12)).
    f_equal. lia.
Qed.

(** When the due day exists in the resolved month (and the year is not a
    two-digit one), the starting invoice date is that day of that month. *)
Lemma startInvoiceDate_default (purchase : Date) (card : @CreditCard number) :
  valid purchase ->
  let r := resolveInvoiceMonth purchase (closingDay card) in
  ~ (0 <= fst r <= 99) ->
  1 <= dueDay card <= daysInMonth (fst r) (snd r) ->
  startInvoiceDate None purchase card = mkDate (fst r) (snd r) (dueDay card) 0.
Proof.
  intros [Hm _] r Hy Hd.
  pose proof (defaultInvoiceMonth_resolve purchase card Hm) as Hs.
  pose proof (f_equal fst Hs) as Hfst. pose proof (f_equal snd Hs) as Hsnd.
  cbn [fst snd] in Hfst, Hsnd.
  unfold startInvoiceDate. cbv zeta. rewrite Hfst, Hsnd. fold r.
  apply newDate_in_month; try assumption.
  now apply resolveInvoiceMonth_range.
Qed.

(** C2. A credit-card request with a non-empty card id appends exactly
    [installmentCount] records (the count being a count: not negative) when
    the id is the one of a card on file; when no card has that id the ledger
    is returned as it was, no identifier is drawn, and the handler returns
    normally. *)
Theorem credit_request_record_count currentUser now
    (formData : @FormData number) data n cid :
  fd_paymentMethod formData = Some CREDIT_CARD ->
  fd_cardId formData = Some cid -> cid <> ""%string ->
  let result := handleSaveTransaction uuid currentUser now formData data n in
  (forall card,
      findCard (cards data) cid = Some card ->
      0 <= countOf formData ->
      exists added,
        transactions (fst result) = transactions data ++ added /\
        Z.of_nat (List.length added) = countOf formData /\
        cards (fst result) = cards data) /\
  (findCard (cards data) cid = None -> result = (data, n)).
Proof.
  intros Hpm Hcid Hne result. subst result.
  rewrite handleSaveTransaction_unfold. split.
  - intros card Hcard Hcount.
    rewrite (transactionsToAdd_card _ _ _ _ cid card) by assumption.
    eexists. split; [reflexivity|]. split; [|reflexivity].
    rewrite installmentsFrom_length. lia.
  - intros Hnone.
    rewrite (transactionsToAdd_unknown_card _ _ _ _ cid) by assumption.
    unfold ret. simpl. rewrite app_nil_r. now destruct data.
Qed.

(** C4. Every record of a credit-card purchase carries the same amount:
    the amount of the request divided by the installment count when the
    amount is the total, the amount of the request itself when it is the
    amount of one installment.  Nothing is rounded and no remainder is
    moved to another installment.  The amount of the request is a number
    that is neither zero nor NaN. *)
Theorem installment_amounts currentUser now (formData : @FormData number)
    data n cid card a :
  fd_paymentMethod formData = Some CREDIT_CARD ->
  fd_cardId formData = Some cid -> cid <> ""%string ->
  findCard (cards data) cid = Some card ->
  fd_amount formData = Some a -> truthy a = true ->
  let added := fst (transactionsToAdd uuid currentUser now formData data n) in
  List.length added = Z.to_nat (countOf formData) /\
  (totalOf formData = true ->
   Forall (fun t => amount t = ndiv a (ofZ (countOf formData))) added) /\
  (totalOf formData = false -> Forall (fun t => amount t = a) added).
Proof.
  intros Hpm Hcid Hne Hcard Ha Htruthy added. subst added.
  rewrite (transactionsToAdd_card _ _ _ _ cid card) by assumption.
  split; [apply installmentsFrom_length|].
  assert (Hbase : baseAmount formData = a).
  { unfold baseAmount. now rewrite Ha, Htruthy. }
  split; intros Htot; apply Forall_forall; intros t Hin;
    apply installmentsFrom_In in Hin; destruct Hin as (j & m & _ & ->);
    rewrite installment_unfold; cbn [fst amount];
    unfold monthlyAmountOf; now rewrite Htot, Hbase.
Qed.

(** C5. A request whose payment method is cash or debit, and an income
    request (as the entry form submits it, which is always as cash or
    debit; or with no payment method; or naming no card), yields exactly
    one record, dated at the purchase date, without installment data; the
    record is the same whatever the card list and the installment inputs
    are.  The one income request not covered names a card with the
    credit-card method: the entry form never submits it. *)
Theorem cash_request_single_record currentUser now
    (formData : @FormData number) data n :
  (fd_paymentMethod formData = Some CASH_DEBIT \/
   (fd_type formData = Some INCOME /\
    exists st, handleSubmit st = Some formData) \/
   (fd_type formData = Some INCOME /\
    isCreditCard (fd_paymentMethod formData)
      && truthyString (fd_cardId formData) = false)) ->
  exists t,
    transactionsToAdd uuid currentUser now formData data n = ([t], S n) /\
    date t = purchaseOf now formData /\
    purchaseDate t = Some (date t) /\
    paymentMethod t = CASH_DEBIT /\
    installments t = None /\
    forall data' count total target,
      transactionsToAdd uuid currentUser now
        (withInstallmentInputs formData count total target) data' n
      = ([t], S n).
Proof.
  intros Hcash.
  assert (Hguard : isCreditCard (fd_paymentMethod formData)
                   && truthyString (fd_cardId formData) = false).
  { destruct Hcash as [Hpm|[(Hty & st & Hsub)|[_ Hguard]]].
    - now rewrite Hpm.
    - unfold handleSubmit in Hsub.
      destruct ((st_amount st =? "")%string || (st_description st =? "")%string);
        [discriminate|].
      destruct (isExpenseOnCard st && (st_cardId st =? "")%string);
        [discriminate|].
      injection Hsub as <-. cbn [fd_type fd_paymentMethod] in *.
      injection Hty as ->. reflexivity.
    - exact Hguard. }
  exists (cashTransaction currentUser now formData (uuid n)).
  split; [now apply transactionsToAdd_cash|].
  repeat (split; [reflexivity|]).
  intros data' count total target.
  now rewrite transactionsToAdd_cash.
Qed.

(** C6, as amended. A record created by the add mode carries installment
    data exactly when it was created on the credit-card path, whatever the
    installment count, a count of one included; its [total] is then the
    installment count and its [current] lies between 1 and that count.  A
    record of the cash path carries none. *)
Theorem installments_presence currentUser now (formData : @FormData number)
    data n :
  Forall
    (fun t =>
       (paymentMethod t = CREDIT_CARD /\
        exists ins,
          installments t = Some ins /\
          total ins = countOf formData /\
          1 <= current ins <= countOf formData) \/
       (paymentMethod t = CASH_DEBIT /\ installments t = None))
    (fst (transactionsToAdd uuid currentUser now formData data n)).
Proof.
  unfold transactionsToAdd.
  destruct (isCreditCard (fd_paymentMethod formData)
            && truthyString (fd_cardId formData)).
  - destruct (findCard _ _) as [card|]; [|constructor].
    apply Forall_forall. intros t Hin.
    apply installmentsFrom_In in Hin. destruct Hin as (j & m & Hj & ->).
    left. rewrite installment_unfold. cbn [fst paymentMethod installments].
    split; [reflexivity|]. eexists. split; [reflexivity|].
    cbn [total current]. split; [reflexivity|]. lia.
  - unfold bind, uuidv4, ret. cbn [fst].
    constructor; [right; split; reflexivity|constructor].
Qed.

(** C9. On the credit-card path the first record, and only the first,
    receives an [originalTransactionId]: the identifier drawn right after
    the record's own, hence another one (two draws in a row differ).  The
    other records have none. *)
Theorem original_id_first_only currentUser now (formData : @FormData number)
    data n cid card :
  fd_paymentMethod formData = Some CREDIT_CARD ->
  fd_cardId formData = Some cid -> cid <> ""%string ->
  findCard (cards data) cid = Some card ->
  1 <= countOf formData ->
  uuid (S n) <> uuid n ->
  exists first rest,
    fst (transactionsToAdd uuid currentUser now formData data n) = first :: rest /\
    tx_id first = uuid n /\
    installments first =
      Some {| current := 1; total := countOf formData;
              originalTransactionId := Some (uuid (S n)) |} /\
    uuid (S n) <> tx_id first /\
    Forall
      (fun t =>
         exists ins,
           installments t = Some ins /\
           1 < current ins /\
           originalTransactionId ins = None)
      rest.
Proof.
  intros Hpm Hcid Hne Hcard Hcount Hfresh.
  rewrite (transactionsToAdd_card _ _ _ _ cid card) by assumption.
  destruct (Z.to_nat (countOf formData)) as [|k] eqn:Hk; [lia|].
  rewrite installmentsFrom_step. cbn [fst].
  eexists _, _. split; [reflexivity|].
  rewrite installment_unfold. cbn [fst snd tx_id installments].
  split; [reflexivity|]. split; [reflexivity|]. split; [exact Hfresh|].
  apply Forall_forall. intros t Hin.
  apply installmentsFrom_In in Hin. destruct Hin as (j & m & Hj & ->).
  rewrite installment_unfold. cbn [fst installments].
  eexists. split; [reflexivity|]. cbn [current originalTransactionId].
  split; [lia|].
  destruct (Z.eqb_spec j 0); [lia|reflexivity].
Qed.

(** C10. A credit-card request whose card id is absent or empty takes the
    cash branch: exactly one record is appended, recorded as cash or debit,
    dated at the purchase date and without installment data. *)
Theorem credit_without_card_is_cash currentUser now
    (formData : @FormData number) data n :
  fd_paymentMethod formData = Some CREDIT_CARD ->
  truthyString (fd_cardId formData) = false ->
  exists t,
    handleSaveTransaction uuid currentUser now formData data n =
      ({| transactions := transactions data ++ [t];
          cards := cards data;
          accounts := accounts data;
          categories := categories data |}, S n) /\
    paymentMethod t = CASH_DEBIT /\
    date t = purchaseOf now formData /\
    purchaseDate t = Some (purchaseOf now formData) /\
    cardId t = None /\
    installments t = None.
Proof.
  intros Hpm Hcid.
  exists (cashTransaction currentUser now formData (uuid n)).
  split; [|repeat split].
  rewrite handleSaveTransaction_unfold, transactionsToAdd_cash; [reflexivity|].
  rewrite Hcid. apply andb_false_r.
Qed.

(** The due date of iteration [i] when the due day exists in every month:
    the due day of the month [i] months after the starting month. *)
Lemma dueDate_regular (start : Date) (card : @CreditCard number) (i : Z) :
  0 <= month start < 12 -> 100 <= year start -> 0 <= i ->
  1 <= dueDay card <= 28 ->
  dueDate start card i =
  mkDate (year start + (month start + i) / 12) ((month start + i) mod 12)
         (dueDay card) 0.
Proof.
  intros Hm Hy Hi Hd. unfold dueDate. cbv zeta.
  destruct (addMonths_month start i Hm) as [-> ->].
  assert (0 <= (month start + i) / 12) by (apply Z.div_pos; lia).
  apply newDate_in_month.
  - lia.
  - apply Z.mod_pos_bound. lia.
  - pose proof (daysInMonth_bounds (year start + (month start + i) / 12)
                                   ((month start + i) mod 12)). lia.
Qed.

(** With a due day up to 28 the loop emits [N] dates, the due day of [N]
    consecutive months from the starting invoice month on. *)
Lemma due_dates_regular currentUser now (formData : @FormData number)
    data n cid card :
  fd_paymentMethod formData = Some CREDIT_CARD ->
  fd_cardId formData = Some cid -> cid <> ""%string ->
  findCard (cards data) cid = Some card ->
  1 <= dueDay card <= 28 ->
  let start :=
    startInvoiceDate (targetInvoiceDate formData) (purchaseOf now formData) card in
  100 <= year start ->
  map date (fst (transactionsToAdd uuid currentUser now formData data n)) =
  map (fun k =>
         mkDate (year start + (month start + Z.of_nat k) / 12)
                ((month start + Z.of_nat k) mod 12) (dueDay card) 0)
      (seq 0 (Z.to_nat (countOf formData))).
Proof.
  intros Hpm Hcid Hne Hcard Hd start Hy.
  rewrite (transactionsToAdd_card _ _ _ _ cid card) by assumption.
  rewrite installmentsFrom_dates. fold start.
  apply map_ext. intros k. rewrite Z.add_0_l.
  apply dueDate_regular; try assumption; try lia.
  assert (Hv : valid start).
  { subst start. unfold startInvoiceDate.
    destruct (targetInvoiceDate formData); apply newDate_valid. }
  apply Hv.
Qed.

End Materializer.

(** ** The ledger views and the status toggle *)

Section Views.

Context {number : Type} `{JsNumber number} `{@DateText number}.

Import JsDate DateFns.

Lemma insertSorted_perm (A : Type) (compare : A -> A -> Z) (x : A) (l : list A) :
  Permutation (insertSorted A compare x l) (x :: l).
Proof.
  induction l as [|y ys IH]; simpl; [reflexivity|].
  destruct (compare x y <=? 0); [reflexivity|].
  rewrite IH. apply perm_swap.
Qed.

(** Sorting keeps the records, each as often as it occurred. *)
Lemma sortBy_perm (A : Type) (compare : A -> A -> Z) (l : list A) :
  Permutation (sortBy A compare l) l.
Proof.
  induction l as [|x xs IH]; simpl; [reflexivity|].
  rewrite insertSorted_perm. now constructor.
Qed.

(** Newest first: no record is followed by a more recent one. *)
Lemma insertSorted_newestFirst (x : @Transaction number) (l : list Transaction) :
  Sorted (fun a b => newestFirst a b <= 0) l ->
  Sorted (fun a b => newestFirst a b <= 0)
         (insertSorted Transaction newestFirst x l).
Proof.
  induction l as [|y ys IH]; intros Hs; simpl.
  - repeat constructor.
  - destruct (Z.leb_spec (newestFirst x y) 0) as [Hle|Hgt].
    + constructor; [exact Hs|now constructor].
    + inversion Hs as [|? ? Hys Hhd]; subst.
      constructor; [now apply IH|].
      destruct ys as [|z zs]; simpl.
      * constructor. unfold newestFirst in *. lia.
      * destruct (newestFirst x z <=? 0); constructor.
        -- unfold newestFirst in *. lia.
        -- now inversion Hhd.
Qed.

Lemma currentMonthTransactions_sorted (ts : list (@Transaction number))
    (M : Date) :
  Sorted (fun a b => timeOf a >= timeOf b) (currentMonthTransactions ts M).
Proof.
  unfold currentMonthTransactions.
  assert (Hs : Sorted (fun a b : @Transaction number => newestFirst a b <= 0)
                      (sortBy Transaction newestFirst
                         (filter (fun t => isSameMonth (date t) M) ts))).
  { induction (filter _ ts) as [|x xs IH]; simpl; [constructor|].
    now apply insertSorted_newestFirst. }
  revert Hs. apply Sorted_ind.
  - constructor.
  - intros a l _ IH Hhd. constructor; [exact IH|].
    destruct Hhd as [|b l' Hab]; constructor.
    unfold newestFirst in Hab. lia.
Qed.

(** The four accumulators of the loop, each as a running total over the
    records that the loop adds to it. *)
Lemma fold_accumulate (l : list (@Transaction number)) :
  forall acc,
    fold_left accumulate l acc =
    {| sumIncomeReal :=
         addAmounts (sumIncomeReal acc)
                    (filter (fun t => isIncome t && isCompleted t) l);
       sumExpenseReal :=
         addAmounts (sumExpenseReal acc)
                    (filter (fun t => negb (isIncome t) && isCompleted t) l);
       sumIncomeProjected :=
         addAmounts (sumIncomeProjected acc) (filter isIncome l);
       sumExpenseProjected :=
         addAmounts (sumExpenseProjected acc)
                    (filter (fun t => negb (isIncome t)) l) |}.
Proof.
  induction l as [|t ts IH]; intros acc; [now destruct acc|].
  cbn [fold_left filter]. rewrite IH.
  unfold accumulate, isIncome, isCompleted.
  destruct (type t), (status t); reflexivity.
Qed.

(** C7. For every transaction set and month, the records summarised are
    those whose date falls in the month; the real income and expense are
    the sums over the completed ones among them, and the two balances are
    exactly the real income minus the real expense and the sum of all
    incomes minus the sum of all expenses of the month.  The summary is a
    function of the transaction set and the month, so computing it again
    gives the same result. *)
Theorem monthly_summary_sums (ts : list (@Transaction number)) (M : Date) :
  let cur := currentMonthTransactions ts M in
  let s := summary cur in
  Permutation cur (filter (fun t => isSameMonth (date t) M) ts) /\
  incomeReal s = sumAmounts (filter (fun t => isIncome t && isCompleted t) cur) /\
  expenseReal s =
    sumAmounts (filter (fun t => negb (isIncome t) && isCompleted t) cur) /\
  balanceReal s = nsub (incomeReal s) (expenseReal s) /\
  balanceProjected s =
    nsub (sumAmounts (filter isIncome cur))
         (sumAmounts (filter (fun t => negb (isIncome t)) cur)).
Proof.
  intros cur s. split; [apply sortBy_perm|].
  subst s. unfold summary, sums. rewrite fold_accumulate.
  repeat split.
Qed.

(** C8. Toggling by id leaves the ledger unchanged in length and order;
    position by position, a record with another id is kept as it is, and a
    record with that id has its status flipped between pending and
    completed and every other field kept.  Cards, accounts and categories
    are untouched. *)
Theorem toggle_status_frame (id : string) (data : @AppData number) :
  let data' := handleToggleStatus id data in
  cards data' = cards data /\
  accounts data' = accounts data /\
  categories data' = categories data /\
  Forall2
    (fun t t' =>
       (tx_id t <> id -> t' = t) /\
       (tx_id t = id ->
        (status t = PENDING -> status t' = COMPLETED) /\
        (status t = COMPLETED -> status t' = PENDING)) /\
       tx_id t' = tx_id t /\ description t' = description t /\
       amount t' = amount t /\ type t' = type t /\ date t' = date t /\
       purchaseDate t' = purchaseDate t /\ user t' = user t /\
       paymentMethod t' = paymentMethod t /\ categoryId t' = categoryId t /\
       accountId t' = accountId t /\ cardId t' = cardId t /\
       installments t' = installments t)
    (transactions data) (transactions data').
Proof.
  intros data'. subst data'. unfold handleToggleStatus. cbn [cards accounts categories transactions].
  repeat (split; [reflexivity|]).
  induction (transactions data) as [|t ts IH]; simpl; constructor; [|exact IH].
  destruct (String.eqb_spec (tx_id t) id) as [E|E].
  - split; [contradiction|]. split; [|repeat split].
    intros _. unfold withStatus. cbn [status].
    split; intros ->; reflexivity.
  - split; [reflexivity|]. split; [contradiction|repeat split].
Qed.

End Views.

(** ** The properties at concrete purchases *)

Module Examples.

Import JsDate DateFns Sample.

(** C3. A card due on day 30, a purchase on 5 January 2023 in three
    installments: the accounting dates are 30 January, 2 March and 30
    March.  The second date is not on the due day, February gets no
    installment and March gets two, where the claim has one date a month,
    each on the due day. *)
Theorem due_dates_skip_short_month :
  map date
      (fst (transactionsToAdd ids None noon
              (onCard (mkDate 2023 0 5 0) 3 true 900%Q)
              (ledger (card 23 30)) 0%nat))
  = [mkDate 2023 0 30 0; mkDate 2023 2 2 0; mkDate 2023 2 30 0].
Proof. vm_compute. reflexivity. Qed.

(** C1. Closing day 10, due day 31, a purchase on 5 April 2024 in three
    installments and no invoice override.  The day is before the closing
    day, so the rule names April; but April has no day 31, the date
    constructor rolls the starting invoice date over to 1 May, and the
    records are dated 31 May, 1 July and 31 July: the first invoice is the
    one of May, where the claim has April. *)
Theorem invoice_month_rolls_over :
  resolveInvoiceMonth (mkDate 2024 3 5 0) (closingDay (card 10 31)) = (2024, 3) /\
  startInvoiceDate None (mkDate 2024 3 5 0) (card 10 31) = mkDate 2024 4 1 0 /\
  map date
      (fst (transactionsToAdd ids None noon
              (onCard (mkDate 2024 3 5 0) 3 true 900%Q)
              (ledger (card 10 31)) 0%nat))
  = [mkDate 2024 4 31 0; mkDate 2024 6 1 0; mkDate 2024 6 31 0].
Proof. vm_compute. repeat split. Qed.

(** The scenario of the specification's section 8: closing day 25, due day
    5, a purchase of 900 on 26 January 2024 in three installments. *)
Example end_to_end_scenario :
  map (fun t => (date t, amount t, installments t))
      (fst (transactionsToAdd ids None noon
              (onCard (mkDate 2024 0 26 0) 3 true 900%Q)
              (ledger (card 25 5)) 0%nat))
  = [ (mkDate 2024 1 5 0, (900 / inject_Z 3)%Q,
       Some {| current := 1; total := 3;
               originalTransactionId := Some "id-1"%string |});
      (mkDate 2024 2 5 0, (900 / inject_Z 3)%Q,
       Some {| current := 2; total := 3; originalTransactionId := None |});
      (mkDate 2024 3 5 0, (900 / inject_Z 3)%Q,
       Some {| current := 3; total := 3; originalTransactionId := None |}) ].
Proof. reflexivity. Qed.

(** The rule at closing day 10: a purchase on day 9 stays in January, one
    on day 10 moves to February, one on 11 December moves to January of
    the next year. *)
Lemma invoice_month_rule_witness :
  (getFullYear (defaultInvoiceMonth (mkDate 2024 0 9 0) (card 10 5)),
   getMonth (defaultInvoiceMonth (mkDate 2024 0 9 0) (card 10 5))) = (2024, 0) /\
  (getFullYear (defaultInvoiceMonth (mkDate 2024 0 10 0) (card 10 5)),
   getMonth (defaultInvoiceMonth (mkDate 2024 0 10 0) (card 10 5))) = (2024, 1) /\
  (getFullYear (defaultInvoiceMonth (mkDate 2024 11 11 0) (card 10 5)),
   getMonth (defaultInvoiceMonth (mkDate 2024 11 11 0) (card 10 5))) = (2025, 0).
Proof.
  split; [|split].
  - apply (invoice_month_rule (mkDate 2024 0 9 0) (card 10 5)).
    unfold valid, daysInMonth; simpl; lia.
  - apply (invoice_month_rule (mkDate 2024 0 10 0) (card 10 5)).
    unfold valid, daysInMonth; simpl; lia.
  - apply (invoice_month_rule (mkDate 2024 11 11 0) (card 10 5)).
    unfold valid, daysInMonth; simpl; lia.
Defined.

(** Three installments on the card on file give three records; the same
    request naming a card that is not on file leaves the ledger as it was. *)
Lemma credit_request_record_count_witness :
  (exists added,
      transactions
        (fst (handleSaveTransaction ids None noon
                (onCard (mkDate 2024 0 26 0) 3 true 900%Q)
                (ledger (card 25 5)) 0%nat))
      = [] ++ added /\
      Z.of_nat (List.length added) = 3 /\
      cards
        (fst (handleSaveTransaction ids None noon
                (onCard (mkDate 2024 0 26 0) 3 true 900%Q)
                (ledger (card 25 5)) 0%nat))
      = [card 25 5]) /\
  handleSaveTransaction ids None noon
    (request EXPENSE CREDIT_CARD (Some "c9"%string) 900%Q (mkDate 2024 0 26 0)
             3 true)
    (ledger (card 25 5)) 0%nat
  = (ledger (card 25 5), 0%nat).
Proof.
  split.
  - edestruct (credit_request_record_count ids None noon
                 (onCard (mkDate 2024 0 26 0) 3 true 900%Q)
                 (ledger (card 25 5)) 0%nat "c1"%string) as [Hfound _];
      [reflexivity | reflexivity | discriminate |].
    apply (Hfound (card 25 5)); [reflexivity | change (0 <= 3); lia].
  - edestruct (credit_request_record_count ids None noon
                 (request EXPENSE CREDIT_CARD (Some "c9"%string) 900%Q
                          (mkDate 2024 0 26 0) 3 true)
                 (ledger (card 25 5)) 0%nat "c9"%string) as [_ Hnone];
      [reflexivity | reflexivity | discriminate |].
    apply Hnone. reflexivity.
Defined.

(** Four installments of 50 each are four records of 50; a total of 300
    in three installments is three records of 300 / 3. *)
Lemma installment_amounts_witness :
  Forall (fun t => amount t = 50%Q)
         (fst (transactionsToAdd ids None noon
                 (onCard (mkDate 2024 0 26 0) 4 false 50%Q)
                 (ledger (card 25 5)) 0%nat)) /\
  Forall (fun t => amount t = (300 / inject_Z 3)%Q)
         (fst (transactionsToAdd ids None noon
                 (onCard (mkDate 2024 0 26 0) 3 true 300%Q)
                 (ledger (card 25 5)) 0%nat)).
Proof.
  split.
  - edestruct (installment_amounts ids None noon
                 (onCard (mkDate 2024 0 26 0) 4 false 50%Q)
                 (ledger (card 25 5)) 0%nat "c1"%string (card 25 5) 50%Q)
      as (_ & _ & Hper);
      [reflexivity | reflexivity | discriminate | reflexivity | reflexivity
      | reflexivity |].
    apply Hper. reflexivity.
  - edestruct (installment_amounts ids None noon
                 (onCard (mkDate 2024 0 26 0) 3 true 300%Q)
                 (ledger (card 25 5)) 0%nat "c1"%string (card 25 5) 300%Q)
      as (_ & Htotal & _);
      [reflexivity | reflexivity | discriminate | reflexivity | reflexivity
      | reflexivity |].
    apply Htotal. reflexivity.
Defined.

(** An income entered with the card selector still on a card: the form
    submits it as cash, and one record results. *)
Lemma cash_request_single_record_witness :
  handleSubmit incomeForm = Some incomeRequest /\
  exists t,
    transactionsToAdd ids None noon incomeRequest (ledger (card 25 5)) 0%nat
    = ([t], 1%nat) /\
    date t = mkDate 2024 0 5 0 /\
    purchaseDate t = Some (date t) /\
    paymentMethod t = CASH_DEBIT /\
    installments t = None /\
    forall data' count total target,
      transactionsToAdd ids None noon
        (withInstallmentInputs incomeRequest count total target) data' 0%nat
      = ([t], 1%nat).
Proof.
  split; [reflexivity|].
  apply (cash_request_single_record ids None noon incomeRequest
           (ledger (card 25 5)) 0%nat).
  right. left. split; [reflexivity|]. exists incomeForm. reflexivity.
Defined.

(** The add mode looks at the payment method and the card id only: an
    income request that named a card with the credit-card method, which the
    entry form never submits, would be billed as a card expense. *)
Lemma income_naming_a_card :
  fd_type (request INCOME CREDIT_CARD (Some "c1"%string) 900%Q
                   (mkDate 2024 0 26 0) 3 true) = Some INCOME /\
  map (fun t => (type t, paymentMethod t, installments t))
      (fst (transactionsToAdd ids None noon
              (request INCOME CREDIT_CARD (Some "c1"%string) 900%Q
                       (mkDate 2024 0 26 0) 3 true)
              (ledger (card 25 5)) 0%nat))
  = [ (EXPENSE, CREDIT_CARD,
       Some {| current := 1; total := 3;
               originalTransactionId := Some "id-1"%string |});
      (EXPENSE, CREDIT_CARD,
       Some {| current := 2; total := 3; originalTransactionId := None |});
      (EXPENSE, CREDIT_CARD,
       Some {| current := 3; total := 3; originalTransactionId := None |}) ].
Proof. split; reflexivity. Qed.

(** C6, as the claim words it, fails for a card purchase in a single
    installment: its record carries installment data, 1 of 1. *)
Lemma single_installment_counterexample :
  countOf (onCard (mkDate 2024 0 26 0) 1 true 900%Q) = 1 /\
  map (fun t => (paymentMethod t, installments t))
      (fst (transactionsToAdd ids None noon
              (onCard (mkDate 2024 0 26 0) 1 true 900%Q)
              (ledger (card 25 5)) 0%nat))
  = [ (CREDIT_CARD,
       Some {| current := 1; total := 1;
               originalTransactionId := Some "id-1"%string |}) ].
Proof. split; reflexivity. Qed.

(** Three installments: the first record has id [id-0] and origin [id-1],
    the other two have no origin. *)
Lemma original_id_first_only_witness :
  exists first rest,
    fst (transactionsToAdd ids None noon
           (onCard (mkDate 2024 0 26 0) 3 true 900%Q)
           (ledger (card 25 5)) 0%nat) = first :: rest /\
    tx_id first = "id-0"%string /\
    installments first =
      Some {| current := 1; total := 3;
              originalTransactionId := Some "id-1"%string |} /\
    "id-1"%string <> tx_id first /\
    Forall
      (fun t =>
         exists ins,
           installments t = Some ins /\
           1 < current ins /\
           originalTransactionId ins = None)
      rest.
Proof.
  apply (original_id_first_only ids None noon
           (onCard (mkDate 2024 0 26 0) 3 true 900%Q) (ledger (card 25 5))
           0%nat "c1"%string (card 25 5));
    [reflexivity | reflexivity | discriminate | reflexivity
    | change (1 <= 3); lia | discriminate].
Defined.

(** A credit-card request with an empty card id is recorded as one cash
    record. *)
Lemma credit_without_card_is_cash_witness :
  exists t,
    handleSaveTransaction ids (Some JEAN) noon
      (request EXPENSE CREDIT_CARD (Some ""%string) 900%Q (mkDate 2024 0 26 0)
               3 true)
      (ledger (card 25 5)) 0%nat
    = ({| transactions := [] ++ [t]; cards := [card 25 5];
          accounts := []; categories := [] |}, 1%nat) /\
    paymentMethod t = CASH_DEBIT /\
    date t = mkDate 2024 0 26 0 /\
    purchaseDate t = Some (mkDate 2024 0 26 0) /\
    cardId t = None /\
    installments t = None.
Proof.
  apply (credit_without_card_is_cash ids (Some JEAN) noon
           (request EXPENSE CREDIT_CARD (Some ""%string) 900%Q
                    (mkDate 2024 0 26 0) 3 true)
           (ledger (card 25 5)) 0%nat);
    reflexivity.
Defined.

End Examples.

(** * Further properties of the handlers and views *)

(** ** Lists under a map that the view functions do not see *)

Section MapFacts.

Variable A : Type.
Variable f : A -> A.

Lemma filter_map_invariant (p : A -> bool) (l : list A) :
  (forall a, p (f a) = p a) -> filter p (map f l) = map f (filter p l).
Proof.
  intros Hp. induction l as [|a l IH]; simpl; [reflexivity|].
  rewrite Hp. destruct (p a); simpl; now rewrite IH.
Qed.

Lemma insertSorted_map (compare : A -> A -> Z) (x : A) (l : list A) :
  (forall a b, compare (f a) (f b) = compare a b) ->
  insertSorted A compare (f x) (map f l) = map f (insertSorted A compare x l).
Proof.
  intros Hc. induction l as [|y ys IH]; simpl; [reflexivity|].
  rewrite Hc. destruct (compare x y <=? 0); simpl; [reflexivity|].
  now rewrite IH.
Qed.

Lemma sortBy_map (compare : A -> A -> Z) (l : list A) :
  (forall a b, compare (f a) (f b) = compare a b) ->
  sortBy A compare (map f l) = map f (sortBy A compare l).
Proof.
  intros Hc. induction l as [|x xs IH]; simpl; [reflexivity|].
  now rewrite IH, insertSorted_map.
Qed.

End MapFacts.

Lemma filter_all_true (A : Type) (p : A -> bool) (l : list A) :
  Forall (fun a => p a = true) l -> filter p l = l.
Proof.
  induction 1 as [|a l Ha _ IH]; simpl; [reflexivity|].
  now rewrite Ha, IH.
Qed.

(** ** Toggling, deleting and editing *)

Section LedgerOps.

Context {number : Type} `{JsNumber number} `{@DateText number}.
Variable uuid : nat -> string.

Import JsDate DateFns DateFacts.

(** The function that [handleToggleStatus] maps over the ledger. *)
Local Abbreviation toggled id :=
  (fun t : @Transaction number =>
     if (tx_id t =? id)%string then withStatus t (toggle (status t)) else t).

Lemma toggled_fields (id : string) (t : @Transaction number) :
  tx_id (toggled id t) = tx_id t /\ amount (toggled id t) = amount t /\
  type (toggled id t) = type t /\ date (toggled id t) = date t /\
  paymentMethod (toggled id t) = paymentMethod t /\
  cardId (toggled id t) = cardId t /\
  categoryId (toggled id t) = categoryId t.
Proof. cbv beta. destruct (tx_id t =? id)%string; repeat split. Qed.

Lemma toggled_time (id : string) (t : @Transaction number) :
  timeOf (toggled id t) = timeOf t.
Proof.
  cbv beta. destruct (tx_id t =? id)%string;
    [apply timeOf_withStatus|reflexivity].
Qed.

Lemma addAmounts_map (g : @Transaction number -> Transaction) (l : list Transaction) :
  (forall t, amount (g t) = amount t) ->
  forall acc, addAmounts acc (map g l) = addAmounts acc l.
Proof.
  intros Hg. unfold addAmounts.
  induction l as [|t l IH]; intros acc; simpl; [reflexivity|].
  now rewrite Hg, IH.
Qed.

(** X1. Toggling the same id twice gives the ledger back. *)
Theorem toggle_twice_restores (id : string) (data : @AppData number) :
  handleToggleStatus id (handleToggleStatus id data) = data.
Proof.
  destruct data as [ts cs acs cats]. unfold handleToggleStatus. simpl.
  f_equal. rewrite map_map.
  induction ts as [|t ts IH]; simpl; [reflexivity|].
  rewrite IH. f_equal.
  destruct (String.eqb_spec (tx_id t) id) as [E|E].
  - cbn [withStatus tx_id]. destruct (String.eqb_spec (tx_id t) id); [|contradiction].
    destruct t as [? ? ? ? st ? ? ? ? ? ? ? ?]. now destruct st.
  - destruct (String.eqb_spec (tx_id t) id); [contradiction|reflexivity].
Qed.

(** X2. Toggling an id that no record has changes nothing. *)
Theorem toggle_unknown_id (id : string) (data : @AppData number) :
  Forall (fun t => tx_id t <> id) (transactions data) ->
  handleToggleStatus id data = data.
Proof.
  destruct data as [ts cs acs cats]. unfold handleToggleStatus. simpl.
  intros Hall. f_equal.
  induction Hall as [|t ts Ht _ IH]; simpl; [reflexivity|].
  rewrite IH. now destruct (String.eqb_spec (tx_id t) id).
Qed.

Lemma currentMonthTransactions_toggled (id : string)
    (ts : list (@Transaction number)) (M : Date) :
  currentMonthTransactions (map (toggled id) ts) M =
  map (toggled id) (currentMonthTransactions ts M).
Proof.
  unfold currentMonthTransactions.
  rewrite (filter_map_invariant _ (toggled id)
             (fun t => isSameMonth (date t) M)).
  - apply sortBy_map. intros a b. unfold newestFirst.
    now rewrite !toggled_time.
  - intros a. now destruct (toggled_fields id a) as (_ & _ & _ & -> & _).
Qed.

(** X3. The projected balance of a month does not depend on the status
    of any record: toggling leaves it as it was. *)
Theorem toggle_keeps_projected_balance (id : string) (data : @AppData number)
    (M : Date) :
  balanceProjected
    (summary (currentMonthTransactions
                (transactions (handleToggleStatus id data)) M)) =
  balanceProjected (summary (currentMonthTransactions (transactions data) M)).
Proof.
  unfold handleToggleStatus. cbn [transactions].
  rewrite currentMonthTransactions_toggled.
  unfold summary, sums. rewrite !fold_accumulate. cbn [balanceProjected
    sumIncomeProjected sumExpenseProjected].
  rewrite (filter_map_invariant _ (toggled id) isIncome),
          (filter_map_invariant _ (toggled id) (fun t => negb (isIncome t))).
  - rewrite !addAmounts_map; [reflexivity| |];
      intros t; now destruct (toggled_fields id t) as (_ & -> & _).
  - intros t. unfold isIncome.
    now destruct (toggled_fields id t) as (_ & _ & -> & _).
  - intros t. unfold isIncome.
    now destruct (toggled_fields id t) as (_ & _ & -> & _).
Qed.

(** X4. Neither the forecast of future invoices nor the total of a card
    invoice looks at the status: toggling leaves both as they were. *)
Theorem toggle_keeps_invoices (id : string) (data : @AppData number)
    (D : Date) (selectedCardId category : string) :
  futureInvoices (transactions (handleToggleStatus id data)) D =
    futureInvoices (transactions data) D /\
  invoiceTotal (cardTransactions (transactions (handleToggleStatus id data))
                                 selectedCardId D category) =
    invoiceTotal (cardTransactions (transactions data) selectedCardId D category).
Proof.
  unfold handleToggleStatus. cbn [transactions]. split.
  - unfold futureInvoices. apply map_ext. intros k. f_equal.
    unfold sumAmounts.
    rewrite (filter_map_invariant _ (toggled id)).
    + apply addAmounts_map.
      intros t. now destruct (toggled_fields id t) as (_ & -> & _).
    + intros t. unfold isCardExpense.
      now destruct (toggled_fields id t) as (_ & _ & -> & -> & -> & _).
  - unfold invoiceTotal, cardTransactions, sumAmounts.
    rewrite (filter_map_invariant _ (toggled id)).
    + rewrite sortBy_map.
      * apply addAmounts_map.
        intros t. now destruct (toggled_fields id t) as (_ & -> & _).
      * intros a b. unfold oldestFirst.
        now rewrite !toggled_time.
    + intros t. unfold matchesCard.
      now destruct (toggled_fields id t) as (_ & _ & _ & -> & -> & -> & ->).
Qed.

(** X5. A confirmed deletion removes the records with the given id and
    no other, keeping the order of the rest; it changes nothing when the
    dialog is cancelled or when no record has the id, and it never touches
    cards, accounts or categories. *)
Theorem delete_transaction_effect (confirmed : bool) (id : string)
    (data : @AppData number) :
  let data' := handleDeleteTransaction confirmed id data in
  cards data' = cards data /\
  accounts data' = accounts data /\
  categories data' = categories data /\
  (confirmed = false -> data' = data) /\
  (confirmed = true ->
   forall t, In t (transactions data') <->
             In t (transactions data) /\ tx_id t <> id) /\
  (Forall (fun t => tx_id t <> id) (transactions data) -> data' = data).
Proof.
  intros data'. subst data'. unfold handleDeleteTransaction.
  destruct confirmed; cbn [cards accounts categories transactions].
  - repeat (split; [reflexivity|]). split; [discriminate|]. split.
    + intros _ t. rewrite filter_In.
      destruct (String.eqb_spec (tx_id t) id); simpl; intuition congruence.
    + intros Hall. destruct data as [ts cs acs cats]. simpl in *. f_equal.
      apply filter_all_true. eapply Forall_impl; [|exact Hall].
      intros t Ht. now destruct (String.eqb_spec (tx_id t) id).
  - repeat (split; [reflexivity|]). split; [discriminate|reflexivity].
Qed.

(** X6. Saving a cash or debit transaction and then deleting it by its id
    gives the ledger back, provided the id drawn for it was not already
    that of a record. *)
Theorem save_then_delete_restores currentUser now
    (formData : @FormData number) data n :
  isCreditCard (fd_paymentMethod formData)
    && truthyString (fd_cardId formData) = false ->
  Forall (fun t => tx_id t <> uuid n) (transactions data) ->
  handleDeleteTransaction true (uuid n)
    (fst (handleSaveTransaction uuid currentUser now formData data n)) = data.
Proof.
  intros Hcash Hfresh.
  rewrite handleSaveTransaction_unfold, transactionsToAdd_cash by assumption.
  unfold handleDeleteTransaction. cbn [fst transactions cards accounts categories].
  destruct data as [ts cs acs cats]. cbn [transactions] in *. f_equal.
  rewrite filter_app. cbn [filter cashTransaction tx_id].
  rewrite String.eqb_refl. simpl. rewrite app_nil_r.
  apply filter_all_true. eapply Forall_impl; [|exact Hfresh].
  intros t Ht. now destruct (String.eqb_spec (tx_id t) (uuid n)).
Qed.

Lemma editAll_Forall2 (editingId : string) (formData : @FormData number)
    (P : Transaction -> Transaction -> Prop) :
  (forall t, tx_id t <> editingId -> P t t) ->
  (forall t, tx_id t = editingId ->
             exists t', mergeEdit t formData = Some t' /\ P t t') ->
  forall ts, exists ts',
    editAll editingId formData ts = Some ts' /\ Forall2 P ts ts'.
Proof.
  intros Hother Hsame. induction ts as [|t ts (ts' & E & HF)]; simpl.
  - exists []. split; [reflexivity|constructor].
  - rewrite E. destruct (String.eqb_spec (tx_id t) editingId) as [Eid|Eid].
    + destruct (Hsame t Eid) as (t' & -> & HP).
      exists (t' :: ts'). split; [reflexivity|now constructor].
    + exists (t :: ts'). split; [reflexivity|]. constructor; auto.
Qed.

(** X7. Submitting the form in edit mode rewrites the records with the
    edited id in place: their description, amount, status and date become
    those of the form, while id, purchase date, user and installment data
    stay; every other record is left as it is and no record is added or
    removed, whatever installment count the form holds. *)
Theorem edit_rewrites_in_place (st : @FormState) (formData : @FormData number)
    (d : Date) (editingId : string) (data : @AppData number) :
  handleSubmit st = Some formData ->
  st_date st = Some d ->
  exists data',
    handleSaveTransactionEdit editingId formData data = Some data' /\
    cards data' = cards data /\
    accounts data' = accounts data /\
    categories data' = categories data /\
    Forall2
      (fun t t' =>
         (tx_id t <> editingId -> t' = t) /\
         (tx_id t = editingId ->
          description t' = st_description st /\
          amount t' = parseFloat (st_amount st) /\
          status t' = st_status st /\
          type t' = st_type st /\
          date t' = d) /\
         tx_id t' = tx_id t /\
         purchaseDate t' = purchaseDate t /\
         user t' = user t /\
         installments t' = installments t)
      (transactions data) (transactions data').
Proof.
  intros Hsub Hdate. unfold handleSubmit in Hsub.
  destruct ((st_amount st =? "")%string || (st_description st =? "")%string);
    [discriminate|].
  destruct (isExpenseOnCard st && (st_cardId st =? "")%string); [discriminate|].
  injection Hsub as <-. unfold handleSaveTransactionEdit.
  match goal with
  | |- context [editAll editingId ?fd (transactions data)] =>
      destruct (editAll_Forall2 editingId fd
        (fun t t' =>
           (tx_id t <> editingId -> t' = t) /\
           (tx_id t = editingId ->
            description t' = st_description st /\
            amount t' = parseFloat (st_amount st) /\
            status t' = st_status st /\
            type t' = st_type st /\
            date t' = d) /\
           tx_id t' = tx_id t /\
           purchaseDate t' = purchaseDate t /\
           user t' = user t /\
           installments t' = installments t)) with (ts := transactions data)
        as (ts' & E & HF)
  end.
  - intros t Hne. split; [reflexivity|]. split; [contradiction|repeat split].
  - intros t Heq. unfold mergeEdit. cbn [fd_type fd_description fd_amount
      fd_date fd_status fd_paymentMethod]. rewrite Hdate.
    eexists. split; [reflexivity|].
    cbn [tx_id description amount status type date purchaseDate user
         installments].
    split; [contradiction|]. repeat split.
  - rewrite E. eexists. split; [reflexivity|]. repeat (split; [reflexivity|]).
    exact HF.
Qed.

End LedgerOps.

(** ** More on the installment loop *)

Section LoopOrder.

Context {number : Type} `{JsNumber number}.
Variable uuid : nat -> string.
Variables (txBase : @FormData number) (card : @CreditCard number).
Variables (start purchase : JsDate.Date) (monthlyAmount : number).
Variables (count : Z) (txUser : User) (txStatus : TransactionStatus).

Local Abbreviation loop :=
  (installmentsFrom uuid txBase card start purchase monthlyAmount count
                    txUser txStatus).

(** The installment numbers of the loop, in order. *)
Lemma installmentsFrom_currents (remaining : nat) :
  forall i n,
    map (fun t => option_map current (installments t))
        (fst (loop remaining i n)) =
    map (fun k => Some (i + Z.of_nat k + 1)) (seq 0 remaining).
Proof.
  induction remaining as [|k IH]; intros i n; [reflexivity|].
  rewrite installmentsFrom_step. cbn [fst map seq].
  rewrite IH, installment_unfold. cbn [fst installments option_map current].
  rewrite Z.add_0_r. f_equal.
  rewrite <- seq_shift, map_map. apply map_ext.
  intros a. do 2 f_equal. lia.
Qed.

(** After the first iteration every iteration draws one identifier. *)
Lemma installmentsFrom_ids_later (remaining : nat) :
  forall i n,
    0 < i ->
    map tx_id (fst (loop remaining i n)) = map uuid (seq n remaining) /\
    snd (loop remaining i n) = (n + remaining)%nat.
Proof.
  induction remaining as [|k IH]; intros i n Hi.
  - split; [reflexivity|]. simpl. unfold ret. simpl. lia.
  - rewrite installmentsFrom_step, installment_unfold. cbn [fst snd map seq tx_id].
    destruct (Z.eqb_spec i 0); [lia|].
    destruct (IH (i + 1) (S n)) as [-> ->]; [lia|].
    split; [reflexivity|lia].
Qed.

(** The first iteration draws two: the record's id and the origin id. *)
Lemma installmentsFrom_ids_first (k : nat) (n : nat) :
  map tx_id (fst (loop (S k) 0 n)) = uuid n :: map uuid (seq (S (S n)) k) /\
  snd (loop (S k) 0 n) = (n + S (S k))%nat.
Proof.
  rewrite installmentsFrom_step, installment_unfold. cbn [fst snd map tx_id].
  change (0 =? 0) with true. cbv iota.
  destruct (installmentsFrom_ids_later k (0 + 1) (S (S n))) as [-> ->]; [lia|].
  split; [reflexivity|lia].
Qed.

End LoopOrder.

(** ** How a saved purchase shows in the views *)

Section SavedPurchase.

Context {number : Type} `{JsNumber number} `{@DateText number}.
Variable uuid : nat -> string.

Import JsDate DateFns DateFacts.

Lemma sortBy_newestFirst_sorted (l : list (@Transaction number)) :
  Sorted (fun a b => timeOf a >= timeOf b) (sortBy Transaction newestFirst l).
Proof.
  assert (Hs : Sorted (fun a b : @Transaction number => newestFirst a b <= 0)
                      (sortBy Transaction newestFirst l)).
  { induction l as [|x xs IH]; simpl; [constructor|].
    now apply insertSorted_newestFirst. }
  revert Hs. apply Sorted_ind.
  - constructor.
  - intros a l' _ IH Hhd. constructor; [exact IH|].
    destruct Hhd as [|b l'' Hab]; constructor.
    unfold newestFirst in Hab. lia.
Qed.

Lemma pendingTransactions_In (ts : list (@Transaction number)) (M : Date)
    (t : @Transaction number) :
  In t (pendingTransactions ts M) <->
  In t ts /\ status t = PENDING /\
  isSameMonth (match purchaseDate t with Some p => p | None => date t end) M
  = true.
Proof.
  unfold pendingTransactions. split.
  - intros Hin. apply (Permutation_in _ (sortBy_perm _ _ _)) in Hin.
    apply filter_In in Hin. destruct Hin as [Hin Hp]. unfold isPendingIn in Hp.
    destruct (status t); [auto|discriminate].
  - intros (Hin & Hst & Hm).
    apply (Permutation_in _ (Permutation_sym (sortBy_perm _ _ _))).
    apply filter_In. split; [exact Hin|]. unfold isPendingIn. now rewrite Hst.
Qed.

(** X8. The pending digest of a month holds exactly the pending records
    whose purchase date (the accounting date when there is none) falls in
    the month, each as often as the ledger holds it; a completed record is
    never in it. *)
Theorem pending_digest_members (ts : list (@Transaction number)) (M : Date) :
  Permutation (pendingTransactions ts M) (filter (isPendingIn M) ts) /\
  forall t,
    In t (pendingTransactions ts M) <->
    In t ts /\ status t = PENDING /\
    isSameMonth (match purchaseDate t with Some p => p | None => date t end) M
    = true.
Proof.
  split; [apply sortBy_perm|]. intros t. apply pendingTransactions_In.
Qed.

(** X9. A pending credit-card purchase shows with all its installments
    in the pending digest of the month it was made in, whatever invoices
    the installments are billed to. *)
Theorem pending_digest_shows_every_installment currentUser now
    (formData : @FormData number) data n cid card :
  fd_paymentMethod formData = Some CREDIT_CARD ->
  fd_cardId formData = Some cid -> cid <> ""%string ->
  findCard (cards data) cid = Some card ->
  fd_status formData = Some PENDING ->
  Forall
    (fun t =>
       In t (pendingTransactions
               (transactions
                  (fst (handleSaveTransaction uuid currentUser now formData
                          data n)))
               (purchaseOf now formData)))
    (fst (transactionsToAdd uuid currentUser now formData data n)).
Proof.
  intros Hpm Hcid Hne Hcard Hst.
  rewrite handleSaveTransaction_unfold. cbn [fst transactions].
  apply Forall_forall. intros t Hin.
  apply pendingTransactions_In. split; [apply in_or_app; now right|].
  rewrite (transactionsToAdd_card _ _ _ _ _ cid card) in Hin by assumption.
  apply installmentsFrom_In in Hin. destruct Hin as (j & m & _ & ->).
  rewrite installment_unfold. cbn [fst status purchaseDate].
  unfold statusOf. rewrite Hst. split; [reflexivity|].
  unfold isSameMonth. now rewrite !Z.eqb_refl.
Qed.

Lemma isCardExpense_cash currentUser now (formData : @FormData number) newId :
  isCardExpense (cashTransaction currentUser now formData newId) = false.
Proof.
  unfold isCardExpense. cbn [cashTransaction type paymentMethod].
  now destruct (match fd_type formData with Some t => t | None => EXPENSE end).
Qed.

Lemma matchesCard_cash currentUser now (formData : @FormData number) newId
    (selectedCardId : string) (D : Date) (category : string) :
  matchesCard selectedCardId D category
              (cashTransaction currentUser now formData newId) = false.
Proof.
  unfold matchesCard. cbn [cashTransaction paymentMethod cardId optionIs].
  now destruct (selectedCardId =? "ALL")%string.
Qed.

(** X10. A cash or debit transaction never shows in a card view: saving
    one leaves the forecast of future invoices and every card invoice list
    as they were. *)
Theorem cash_save_keeps_card_views currentUser now
    (formData : @FormData number) data n (D : Date)
    (selectedCardId category : string) :
  isCreditCard (fd_paymentMethod formData)
    && truthyString (fd_cardId formData) = false ->
  let data' := fst (handleSaveTransaction uuid currentUser now formData data n) in
  futureInvoices (transactions data') D = futureInvoices (transactions data) D /\
  cardTransactions (transactions data') selectedCardId D category =
    cardTransactions (transactions data) selectedCardId D category.
Proof.
  intros Hcash data'. subst data'.
  rewrite handleSaveTransaction_unfold, transactionsToAdd_cash by assumption.
  cbn [fst transactions]. split.
  - unfold futureInvoices. apply map_ext. intros k. f_equal.
    rewrite filter_app. cbn [filter]. rewrite isCardExpense_cash.
    cbn [andb]. now rewrite app_nil_r.
  - unfold cardTransactions. rewrite filter_app.
    cbn [filter]. rewrite matchesCard_cash. now rewrite app_nil_r.
Qed.

(** X11. The records of a credit-card purchase are numbered 1, 2, ..., N
    in the order they are appended, and all carry the purchase date, the
    status and the user of the request, the type expense and the card and
    category of the request. *)
Theorem installments_numbered_in_order currentUser now
    (formData : @FormData number) data n cid card :
  fd_paymentMethod formData = Some CREDIT_CARD ->
  fd_cardId formData = Some cid -> cid <> ""%string ->
  findCard (cards data) cid = Some card ->
  let added := fst (transactionsToAdd uuid currentUser now formData data n) in
  map (fun t => option_map current (installments t)) added =
    map (fun k => Some (Z.of_nat k + 1)) (seq 0 (Z.to_nat (countOf formData))) /\
  Forall
    (fun t =>
       purchaseDate t = Some (purchaseOf now formData) /\
       status t = statusOf formData /\
       user t = userOf currentUser /\
       type t = EXPENSE /\
       cardId t = Some cid /\
       categoryId t = fd_categoryId formData)
    added.
Proof.
  intros Hpm Hcid Hne Hcard added. subst added.
  rewrite (transactionsToAdd_card _ _ _ _ _ cid card) by assumption. split.
  - rewrite installmentsFrom_currents. apply map_ext. intros k. f_equal.
  - apply Forall_forall. intros t Hin.
    apply installmentsFrom_In in Hin. destruct Hin as (j & m & _ & ->).
    rewrite installment_unfold.
    cbn [fst purchaseDate status user type cardId categoryId].
    rewrite Hcid. repeat split.
Qed.

(** X12. When the identifiers drawn for a purchase are pairwise distinct,
    so are the ids of its records, and the origin id given to the first
    record is the id of none of them.  A purchase of [N >= 1] installments
    draws [N + 1] identifiers. *)
Theorem purchase_ids_distinct currentUser now (formData : @FormData number)
    data n cid card :
  fd_paymentMethod formData = Some CREDIT_CARD ->
  fd_cardId formData = Some cid -> cid <> ""%string ->
  findCard (cards data) cid = Some card ->
  1 <= countOf formData ->
  NoDup (map uuid (seq n (S (Z.to_nat (countOf formData))))) ->
  let result := transactionsToAdd uuid currentUser now formData data n in
  NoDup (map tx_id (fst result)) /\
  ~ In (uuid (S n)) (map tx_id (fst result)) /\
  snd result = (n + S (Z.to_nat (countOf formData)))%nat.
Proof.
  intros Hpm Hcid Hne Hcard Hcount Hnodup result. subst result.
  rewrite (transactionsToAdd_card _ _ _ _ _ cid card) by assumption.
  destruct (Z.to_nat (countOf formData)) as [|k] eqn:Hk; [lia|].
  destruct (installmentsFrom_ids_first uuid formData card
              (startInvoiceDate (targetInvoiceDate formData)
                                (purchaseOf now formData) card)
              (purchaseOf now formData) (monthlyAmountOf formData)
              (countOf formData) (userOf currentUser) (statusOf formData) k n)
    as [-> ->].
  cbn [seq map] in Hnodup.
  inversion Hnodup as [|a l Ha Hrest]; subst.
  inversion Hrest as [|b l' Hb Hrest']; subst.
  repeat split.
  - constructor; [|exact Hrest'].
    intros Hin. apply Ha. now right.
  - intros [E|Hin]; [apply Ha; left; now symmetry|now apply Hb].
Qed.

End SavedPurchase.

(** ** Installments and invoice months *)

Section InvoiceMonths.

Context {number : Type} `{JsNumber number}.
Variable uuid : nat -> string.

Import JsDate DateFns DateFacts.

Lemma filter_eqb_seq (k n : nat) :
  forall a,
    List.length (filter (fun j => Nat.eqb j k) (seq a n)) =
    if ((a <=? k) && (k <? a + n))%nat then 1%nat else 0%nat.
Proof.
  induction n as [|n IH]; intros a; simpl.
  - destruct (Nat.leb_spec a k), (Nat.ltb_spec k (a + 0)); simpl; lia.
  - destruct (Nat.eqb_spec a k); cbn [List.length]; rewrite IH;
      destruct (Nat.leb_spec a k), (Nat.leb_spec (S a) k),
        (Nat.ltb_spec k (a + S n)), (Nat.ltb_spec k (S a + n)); simpl; lia.
Qed.

Lemma length_filter_map (A B : Type) (g : B -> bool) (f : A -> B) (l : list A) :
  List.length (filter (fun a => g (f a)) l) = List.length (filter g (map f l)).
Proof.
  induction l as [|a l IH]; simpl; [reflexivity|].
  destruct (g (f a)); simpl; now rewrite IH.
Qed.

(** Two months counted from the same month coincide only at the same
    offset. *)
Lemma month_offsets_injective (y m j k : Z) :
  y + (m + j) / 12 = y + (m + k) / 12 -> (m + j) mod 12 = (m + k) mod 12 ->
  j = k.
Proof.
  intros Hq Hr.
  pose proof (Z.div_mod (m + j) 12). pose proof (Z.div_mod (m + k) 12). lia.
Qed.

(** X13. With a due day that every month has (1 to 28), each of the [N]
    months from the starting invoice month on receives exactly one
    installment of the purchase, and no later month receives any. *)
Theorem one_installment_per_month currentUser now (formData : @FormData number)
    data n cid card (k : nat) :
  fd_paymentMethod formData = Some CREDIT_CARD ->
  fd_cardId formData = Some cid -> cid <> ""%string ->
  findCard (cards data) cid = Some card ->
  1 <= dueDay card <= 28 ->
  let start :=
    startInvoiceDate (targetInvoiceDate formData) (purchaseOf now formData) card in
  100 <= year start ->
  List.length
    (filter (fun t => isSameMonth (date t) (addMonths start (Z.of_nat k)))
            (fst (transactionsToAdd uuid currentUser now formData data n))) =
  if Z.of_nat k <? countOf formData then 1%nat else 0%nat.
Proof.
  intros Hpm Hcid Hne Hcard Hd start Hy.
  assert (Hv : valid start).
  { subst start. unfold startInvoiceDate.
    destruct (targetInvoiceDate formData); apply newDate_valid. }
  destruct Hv as [Hm _].
  rewrite (length_filter_map _ _
             (fun d => isSameMonth d (addMonths start (Z.of_nat k))) date).
  rewrite (due_dates_regular uuid currentUser now formData data n cid card)
    by assumption.
  fold start. rewrite <- length_filter_map.
  rewrite (filter_ext _ (fun j => Nat.eqb j k)).
  - rewrite filter_eqb_seq. simpl.
    destruct (Nat.ltb_spec k (Z.to_nat (countOf formData))),
      (Z.ltb_spec (Z.of_nat k) (countOf formData)); lia || reflexivity.
  - intros j. unfold isSameMonth. cbn [year month].
    destruct (addMonths_month start (Z.of_nat k) Hm) as [Ey Em].
    unfold getFullYear, getMonth in Ey, Em. rewrite Ey, Em.
    destruct (Nat.eqb_spec j k) as [->|Hjk].
    + now rewrite !Z.eqb_refl.
    + apply andb_false_iff.
      destruct (Z.eqb_spec (year start + (month start + Z.of_nat j) / 12)
                           (year start + (month start + Z.of_nat k) / 12))
        as [Eq|]; [|now left].
      right. apply Z.eqb_neq. intros Er.
      apply Hjk, Nat2Z.inj. eapply month_offsets_injective; eassumption.
Qed.

Lemma nextMonth_twice (y m : Z) :
  0 <= m < 12 ->
  nextMonth (fst (nextMonth y m)) (snd (nextMonth y m)) =
  (y + (m + 2) / 12, (m + 2) mod 12).
Proof.
  intros Hm. rewrite (nextMonth_addMonths y m Hm). cbn [fst snd].
  rewrite nextMonth_addMonths by (apply Z.mod_pos_bound; lia).
  assert (Hc : m < 10 \/ m = 10 \/ m = 11) by lia.
  destruct Hc as [Hlt|[->| ->]]; [|cbn; f_equal; lia|cbn; f_equal; lia].
  rewrite (Z.div_small (m + 1)), (Z.mod_small (m + 1)), (Z.div_small (m + 2)),
    (Z.mod_small (m + 2)), (Z.div_small (m + 1 + 1)), (Z.mod_small (m + 1 + 1))
    by lia.
  f_equal; lia.
Qed.

(** X14. When the form offers invoices, they are the first days of three
    consecutive months, the first being the month the default rule
    resolves; picking that first option bills exactly as picking none. *)
Theorem invoice_options_consecutive (st : FormState)
    (cs : list (@CreditCard number)) (card : @CreditCard number)
    (purchase : Date) :
  st_paymentMethod st = CREDIT_CARD ->
  st_cardId st <> ""%string ->
  findCard cs (st_cardId st) = Some card ->
  st_date st = Some purchase ->
  valid purchase ->
  let r0 := resolveInvoiceMonth purchase (closingDay card) in
  let r1 := nextMonth (fst r0) (snd r0) in
  let r2 := nextMonth (fst r1) (snd r1) in
  invoiceOptions st cs =
    [mkDate (fst r0) (snd r0) 1 0; mkDate (fst r1) (snd r1) 1 0;
     mkDate (fst r2) (snd r2) 1 0] /\
  startInvoiceDate (Some (mkDate (fst r0) (snd r0) 1 0)) purchase card =
    startInvoiceDate None purchase card.
Proof.
  intros Hpm Hcid Hcard Hdate [Hm Hd] r0 r1 r2.
  pose proof (resolveInvoiceMonth_range purchase (closingDay card) Hm) as Hr0.
  fold r0 in Hr0.
  assert (Hbase :
    (if closingDay card <=? getDate purchase
     then addMonths (startOfMonth purchase) 1 else startOfMonth purchase)
    = mkDate (fst r0) (snd r0) 1 0).
  { subst r0. unfold resolveInvoiceMonth, getDate.
    destruct (closingDay card <=? day purchase); [|reflexivity].
    rewrite nextMonth_addMonths by exact Hm.
    unfold addMonths, startOfMonth. simpl.
    pose proof (daysInMonth_bounds (year purchase + (month purchase + 1) / 12)
                                   ((month purchase + 1) mod 12)).
    f_equal. lia. }
  split.
  - unfold invoiceOptions. rewrite Hpm, Hcard, Hdate. simpl.
    destruct (String.eqb_spec (st_cardId st) ""); [contradiction|].
    rewrite Hbase. f_equal. f_equal; [|f_equal].
    + subst r1. rewrite nextMonth_addMonths by exact Hr0.
      unfold addMonths. simpl.
      pose proof (daysInMonth_bounds (fst r0 + (snd r0 + 1) / 12)
                                     ((snd r0 + 1) mod 12)).
      f_equal. lia.
    + subst r2 r1. rewrite nextMonth_twice by exact Hr0.
      unfold addMonths. simpl.
      pose proof (daysInMonth_bounds (fst r0 + (snd r0 + 2) / 12)
                                     ((snd r0 + 2) mod 12)).
      f_equal. lia.
  - unfold startInvoiceDate. cbv zeta. unfold getFullYear, getMonth. simpl.
    pose proof (defaultInvoiceMonth_resolve purchase card Hm) as Hs.
    fold r0 in Hs.
    pose proof (f_equal fst Hs) as Hfst. pose proof (f_equal snd Hs) as Hsnd.
    cbn [fst snd] in Hfst, Hsnd. unfold getFullYear, getMonth in Hfst, Hsnd.
    now rewrite Hfst, Hsnd.
Qed.

(** X15. A credit-card purchase that the form submits never ends on the
    cash branch: every record it yields is a credit-card record, and an
    income is never submitted as a card purchase. *)
Theorem submitted_card_purchase_stays_on_card currentUser now (st : FormState)
    (formData : @FormData number) data n :
  handleSubmit st = Some formData ->
  fd_paymentMethod formData = Some CREDIT_CARD ->
  fd_type formData = Some EXPENSE /\
  truthyString (fd_cardId formData) = true /\
  Forall (fun t => paymentMethod t = CREDIT_CARD)
         (fst (transactionsToAdd uuid currentUser now formData data n)).
Proof.
  intros Hsub Hpm. unfold handleSubmit in Hsub.
  destruct ((st_amount st =? "")%string || (st_description st =? "")%string);
    [discriminate|].
  destruct (isExpenseOnCard st && (st_cardId st =? "")%string) eqn:Hguard;
    [discriminate|].
  injection Hsub as <-. cbn [fd_paymentMethod fd_type fd_cardId] in *.
  unfold isExpenseOnCard in *.
  destruct (st_type st); [discriminate|].
  injection Hpm as Hpm. rewrite Hpm in *. cbn [andb] in Hguard.
  split; [reflexivity|].
  assert (Htruthy : truthyString (Some (st_cardId st)) = true).
  { simpl. now rewrite Hguard. }
  split; [exact Htruthy|].
  unfold transactionsToAdd. cbn [fd_paymentMethod fd_cardId isCreditCard].
  rewrite Htruthy. cbn [andb].
  destruct (findCard _ _) as [card|]; [|constructor].
  apply Forall_forall. intros t Hin.
  apply installmentsFrom_In in Hin. destruct Hin as (j & m & _ & ->).
  now rewrite installment_unfold.
Qed.

(** X16. Deleting a card leaves every transaction in the ledger, those
    of the card included; a purchase that still names the deleted card is
    then dropped: the ledger stays as it is and no identifier is drawn. *)
Theorem deleted_card_drops_purchases currentUser now
    (formData : @FormData number) data n cid :
  fd_paymentMethod formData = Some CREDIT_CARD ->
  fd_cardId formData = Some cid -> cid <> ""%string ->
  transactions (deleteCard cid data) = transactions data /\
  findCard (cards (deleteCard cid data)) cid = None /\
  handleSaveTransaction uuid currentUser now formData (deleteCard cid data) n
  = (deleteCard cid data, n).
Proof.
  intros Hpm Hcid Hne.
  assert (Hnone : findCard (cards (deleteCard cid data)) cid = None).
  { unfold deleteCard, findCard. cbn [cards].
    induction (cards data) as [|c cs IH]; simpl; [reflexivity|].
    destruct (String.eqb_spec (card_id c) cid) as [E|E]; simpl; [exact IH|].
    destruct (String.eqb_spec (card_id c) cid); [contradiction|exact IH]. }
  split; [reflexivity|]. split; [exact Hnone|].
  rewrite handleSaveTransaction_unfold.
  rewrite (transactionsToAdd_unknown_card _ _ _ _ _ cid) by assumption.
  unfold ret. cbn [fst snd]. rewrite app_nil_r. reflexivity.
Qed.

End InvoiceMonths.

(** ** Stored data, the transaction list and receipts *)

Section Persistence.

Context {number : Type} `{JsNumber number} `{@DateText number}.

Import JsDate DateFns.

Lemma migrate_toStored (t : @Transaction number) :
  purchaseDate t <> None -> categoryId t <> Some ""%string ->
  migrate (toStored t) = t.
Proof.
  intros Hp Hc. destruct t as [? ? ? ? ? ? p ? ? c ? ? ?]. simpl in *.
  unfold migrate, toStored. simpl.
  destruct p as [p|]; [|contradiction].
  destruct c as [c|]; [|reflexivity]. simpl.
  destruct (String.eqb_spec c ""); [subst; contradiction|reflexivity].
Qed.

Lemma load_save_complete (data : @AppData number) :
  categories data <> [] ->
  Forall (fun t => purchaseDate t <> None /\ categoryId t <> Some ""%string)
         (transactions data) ->
  loadData (Document (saveData data)) = Some data.
Proof.
  destruct data as [ts cs acs cats]. cbn [categories transactions].
  intros Hcats Hts. unfold loadData, saveData. simpl. do 2 f_equal.
  - rewrite map_map. induction Hts as [|t ts [Hp Hc] _ IH]; simpl; [reflexivity|].
    now rewrite IH, migrate_toStored.
  - destruct cats; [contradiction|reflexivity].
Qed.



(** X17. Writing the data and reading it back gives the same data, as
    long as there is a category and every transaction has a purchase date
    and no empty category id. *)
Theorem load_after_save (data : @AppData number) :
  categories data <> [] ->
  Forall (fun t => purchaseDate t <> None /\ categoryId t <> Some ""%string)
         (transactions data) ->
  loadData (Document (saveData data)) = Some data.
Proof.
  intros Hcats Hts. now apply load_save_complete.
Qed.


Lemma addToTotals_fold (l : list (@Transaction number)) :
  forall acc,
    fold_left addToTotals l acc =
    {| income := addAmounts (income acc) (filter isIncome l);
       expense := addAmounts (expense acc)
                             (filter (fun t => negb (isIncome t)) l) |}.
Proof.
  induction l as [|t ts IH]; intros acc; [now destruct acc|].
  cbn [fold_left filter]. rewrite IH. unfold addToTotals, isIncome.
  destruct (type t); reflexivity.
Qed.

(** X19. With every filter on ['ALL'], the transaction list of a month is
    the month's dashboard list, record for record in the same order, and
    the difference of its two totals is the dashboard's projected
    balance. *)
Theorem unfiltered_list_is_dashboard_list (ts : list (@Transaction number))
    (M : Date) :
  let f := {| filterMonth := M; filterType := None; filterStatus := None;
              filterCategory := "ALL"; filterCard := "ALL" |} in
  filtered ts f = currentMonthTransactions ts M /\
  nsub (income (listSummary (filtered ts f)))
       (expense (listSummary (filtered ts f))) =
  balanceProjected (summary (currentMonthTransactions ts M)).
Proof.
  intros f.
  assert (E : filtered ts f = currentMonthTransactions ts M).
  { unfold filtered, currentMonthTransactions. f_equal.
    apply filter_ext. intros t. unfold matchesFilters. subst f. simpl.
    now rewrite !andb_true_r. }
  split; [exact E|]. rewrite E.
  unfold listSummary, summary, sums.
  now rewrite addToTotals_fold, fold_accumulate.
Qed.

(** X20. A narrower filter only removes records: whatever the filters,
    every record of the filtered list is a record of the month's dashboard
    list, and it matches each filter that is set. *)
Theorem filtered_list_within_month (ts : list (@Transaction number))
    (f : ListFilters) (t : @Transaction number) :
  In t (filtered ts f) ->
  In t (currentMonthTransactions ts (filterMonth f)) /\
  (forall ty, filterType f = Some ty -> type t = ty) /\
  (forall s, filterStatus f = Some s -> status t = s) /\
  (filterCategory f <> "ALL"%string -> categoryId t = Some (filterCategory f)) /\
  (filterCard f <> "ALL"%string -> cardId t = Some (filterCard f)).
Proof.
  unfold filtered, currentMonthTransactions. intros Hin.
  apply (Permutation_in _ (sortBy_perm _ _ _)) in Hin.
  apply filter_In in Hin. destruct Hin as [Hin Hm].
  unfold matchesFilters in Hm. cbv zeta in Hm.
  do 4 (apply andb_true_iff in Hm; destruct Hm as [Hm ?]).
  split.
  - apply (Permutation_in _ (Permutation_sym (sortBy_perm _ _ _))).
    apply filter_In. now split.
  - repeat split.
    + intros ty E. rewrite E in *. destruct ty, (type t); congruence.
    + intros s E. rewrite E in *. destruct s, (status t); congruence.
    + intros Hne.
      destruct (String.eqb_spec (filterCategory f) "ALL"); [contradiction|].
      simpl in *. destruct (categoryId t) as [c|]; simpl in *; [|discriminate].
      f_equal. now apply String.eqb_eq.
    + intros Hne.
      destruct (String.eqb_spec (filterCard f) "ALL"); [contradiction|].
      simpl in *. destruct (cardId t) as [c|]; simpl in *; [|discriminate].
      f_equal. now apply String.eqb_eq.
Qed.

End Persistence.

Section Receipts.

Context {number : Type} `{JsNumber number}.

Lemma substring_whole (s : string) : substring 0 (String.length s) s = s.
Proof. induction s as [|c s IH]; simpl; [reflexivity|now rewrite IH]. Qed.

Lemma substring_nothing (s : string) : substring 0 0 s = ""%string.
Proof. now destruct s. Qed.

Lemma length_app (a b : string) :
  String.length (a ++ b) = (String.length a + String.length b)%nat.
Proof. induction a as [|c a IH]; simpl; [reflexivity|now rewrite IH]. Qed.

Lemma substring_after (pre suf : string) :
  substring (String.length pre) (String.length suf) (pre ++ suf) = suf.
Proof.
  induction pre as [|c pre IH]; simpl; [apply substring_whole|exact IH].
Qed.

Lemma split_at (s : string) :
  forall n, (n <= String.length s)%nat ->
            s = (substring 0 n s ++ substring n (String.length s - n) s)%string.
Proof.
  induction s as [|c s IH]; intros n Hn.
  - simpl in Hn. assert (n = 0)%nat by lia. subst. reflexivity.
  - destruct n as [|n].
    + rewrite substring_nothing. simpl. now rewrite substring_whole.
    + simpl in *. f_equal. apply IH. lia.
Qed.

(** [endsWith] holds exactly of the strings that end with the suffix. *)
Lemma endsWith_spec (s suffix : string) :
  endsWith s suffix = true <-> exists pre, s = (pre ++ suffix)%string.
Proof.
  unfold endsWith. rewrite andb_true_iff, Nat.leb_le, String.eqb_eq. split.
  - intros [Hlen Hsub]. eexists.
    rewrite (split_at s (String.length s - String.length suffix)) at 1 by lia.
    f_equal.
    replace (String.length s - (String.length s - String.length suffix))%nat
      with (String.length suffix) by lia.
    exact Hsub.
  - intros [pre ->]. rewrite length_app. split; [lia|].
    replace (String.length pre + String.length suffix - String.length suffix)%nat
      with (String.length pre) by lia.
    apply substring_after.
Qed.

(** X21. A receipt is matched only to a card on file whose stored digits
    are not empty and end with the digits read from the receipt, and to the
    first such card; digits that are missing or empty match no card. *)
Theorem receipt_match_is_sound (cs : list (@CreditCard number))
    (last4 : option string) (id : string) :
  matchedCardId cs last4 = Some id ->
  exists card digits own pre,
    In card cs /\ card_id card = id /\
    last4 = Some digits /\ digits <> ""%string /\
    last4Digits card = Some own /\ own <> ""%string /\
    own = (pre ++ digits)%string /\
    findCard cs id <> None.
Proof.
  unfold matchedCardId. destruct last4 as [digits|]; [|discriminate].
  destruct (String.eqb_spec digits ""); [discriminate|]. simpl.
  destruct (find _ cs) as [card|] eqn:Hfind; [|discriminate].
  intros [= <-]. apply find_some in Hfind. destruct Hfind as [Hin Hp].
  destruct (last4Digits card) as [own|] eqn:Hown; [|discriminate].
  apply andb_true_iff in Hp. destruct Hp as [Hne Hends].
  apply endsWith_spec in Hends. destruct Hends as [pre ->].
  exists card, digits, (pre ++ digits)%string, pre.
  repeat split; try assumption; try reflexivity.
  - intros E. rewrite E in Hne. discriminate.
  - unfold findCard. intros Hnone.
    apply (find_none _ _ Hnone) in Hin. now rewrite String.eqb_refl in Hin.
Qed.

(** X22. Cards saved without digits are never matched: when no card on
    file has stored digits, no receipt is matched to a card. *)
Theorem receipt_match_needs_stored_digits (cs : list (@CreditCard number))
    (last4 : option string) :
  Forall (fun c => last4Digits c = None \/ last4Digits c = Some ""%string) cs ->
  matchedCardId cs last4 = None.
Proof.
  intros Hall. unfold matchedCardId.
  destruct last4 as [digits|]; [|reflexivity].
  destruct (negb (digits =? "")%string); [|reflexivity].
  induction Hall as [|c cs [Hc|Hc] _ IH]; simpl; [reflexivity| |];
    rewrite Hc; simpl; exact IH.
Qed.

End Receipts.

(** ** The further properties at concrete ledgers *)

Module MoreExamples.

Import JsDate DateFns Sample.

(** No record of the sample ledger has the id [zz]. *)
Lemma toggle_unknown_id_witness :
  handleToggleStatus "zz" twoRecords = twoRecords.
Proof.
  apply (toggle_unknown_id "zz" twoRecords).
  repeat constructor; discriminate.
Defined.

(** A cash expense saved to the sample ledger and deleted again. *)
Lemma save_then_delete_restores_witness :
  handleDeleteTransaction true "id-0"
    (fst (handleSaveTransaction ids None noon
            (request EXPENSE CASH_DEBIT None 15%Q (mkDate 2024 0 12 0) 1 true)
            twoRecords 0%nat))
  = twoRecords.
Proof.
  apply (save_then_delete_restores ids None noon
           (request EXPENSE CASH_DEBIT None 15%Q (mkDate 2024 0 12 0) 1 true)
           twoRecords 0%nat).
  - reflexivity.
  - repeat constructor; discriminate.
Defined.

(** Editing record [a] with the sample form keeps two records. *)
Lemma edit_rewrites_in_place_witness :
  exists data',
    handleSaveTransactionEdit "a" expenseRequest twoRecords = Some data' /\
    List.length (transactions data') = 2%nat.
Proof.
  destruct (edit_rewrites_in_place expenseForm expenseRequest
              (mkDate 2024 0 26 0) "a" twoRecords)
    as (data' & E & _ & _ & _ & HF); [reflexivity | reflexivity |].
  exists data'. split; [exact E|].
  now rewrite <- (Forall2_length HF).
Defined.

(** The three installments of a purchase of 26 January 2024 all show in
    the pending digest of January. *)
Lemma pending_digest_shows_every_installment_witness :
  Forall
    (fun t =>
       In t (pendingTransactions
               (transactions
                  (fst (handleSaveTransaction ids None noon
                          (onCard (mkDate 2024 0 26 0) 3 true 900%Q)
                          (ledger (card 25 5)) 0%nat)))
               (mkDate 2024 0 26 0)))
    (fst (transactionsToAdd ids None noon
            (onCard (mkDate 2024 0 26 0) 3 true 900%Q)
            (ledger (card 25 5)) 0%nat)).
Proof.
  apply (pending_digest_shows_every_installment ids None noon
           (onCard (mkDate 2024 0 26 0) 3 true 900%Q) (ledger (card 25 5))
           0%nat "c1"%string (card 25 5));
    solve [reflexivity | discriminate].
Defined.

(** A cash expense does not change the forecast or the card invoice. *)
Lemma cash_save_keeps_card_views_witness :
  futureInvoices
    (transactions
       (fst (handleSaveTransaction ids None noon
               (request EXPENSE CASH_DEBIT None 15%Q (mkDate 2024 1 12 0) 1 true)
               twoRecords 0%nat)))
    (mkDate 2024 1 1 0)
  = futureInvoices (transactions twoRecords) (mkDate 2024 1 1 0) /\
  cardTransactions
    (transactions
       (fst (handleSaveTransaction ids None noon
               (request EXPENSE CASH_DEBIT None 15%Q (mkDate 2024 1 12 0) 1 true)
               twoRecords 0%nat)))
    "ALL" (mkDate 2024 1 1 0) "ALL"
  = cardTransactions (transactions twoRecords) "ALL" (mkDate 2024 1 1 0) "ALL".
Proof.
  apply (cash_save_keeps_card_views ids None noon
           (request EXPENSE CASH_DEBIT None 15%Q (mkDate 2024 1 12 0) 1 true)
           twoRecords 0%nat (mkDate 2024 1 1 0) "ALL" "ALL").
  reflexivity.
Defined.

(** Three installments are numbered 1, 2, 3. *)
Lemma installments_numbered_in_order_witness :
  map (fun t => option_map current (installments t))
      (fst (transactionsToAdd ids None noon
              (onCard (mkDate 2024 0 26 0) 3 true 900%Q)
              (ledger (card 25 5)) 0%nat))
  = [Some 1; Some 2; Some 3].
Proof.
  edestruct (installments_numbered_in_order ids None noon
               (onCard (mkDate 2024 0 26 0) 3 true 900%Q)
               (ledger (card 25 5)) 0%nat "c1"%string (card 25 5))
    as [Hnumbers _];
    [reflexivity | reflexivity | discriminate | reflexivity |].
  exact Hnumbers.
Defined.

(** The four identifiers drawn for three installments are distinct, and
    so are the three record ids. *)
Lemma purchase_ids_distinct_witness :
  NoDup (map tx_id
           (fst (transactionsToAdd ids None noon
                   (onCard (mkDate 2024 0 26 0) 3 true 900%Q)
                   (ledger (card 25 5)) 0%nat))) /\
  ~ In "id-1"%string
       (map tx_id
          (fst (transactionsToAdd ids None noon
                  (onCard (mkDate 2024 0 26 0) 3 true 900%Q)
                  (ledger (card 25 5)) 0%nat))) /\
  snd (transactionsToAdd ids None noon
         (onCard (mkDate 2024 0 26 0) 3 true 900%Q)
         (ledger (card 25 5)) 0%nat) = 4%nat.
Proof.
  apply (purchase_ids_distinct ids None noon
           (onCard (mkDate 2024 0 26 0) 3 true 900%Q) (ledger (card 25 5))
           0%nat "c1"%string (card 25 5));
    [reflexivity | reflexivity | discriminate | reflexivity
    | change (1 <= 3); lia |].
  change (NoDup ["id-0"; "id-1"; "id-2"; "id-3"]%string).
  repeat constructor; simpl; intuition discriminate.
Defined.

(** Due day 5: March 2024, one month after the starting invoice, gets one
    of the three installments. *)
Lemma one_installment_per_month_witness :
  List.length
    (filter (fun t => isSameMonth (date t) (mkDate 2024 2 5 0))
            (fst (transactionsToAdd ids None noon
                    (onCard (mkDate 2024 0 26 0) 3 true 900%Q)
                    (ledger (card 25 5)) 0%nat)))
  = 1%nat.
Proof.
  apply (one_installment_per_month ids None noon
           (onCard (mkDate 2024 0 26 0) 3 true 900%Q) (ledger (card 25 5))
           0%nat "c1"%string (card 25 5) 1%nat);
    [reflexivity | reflexivity | discriminate | reflexivity
    | change (1 <= 5 <= 28); lia | change (100 <= 2024); lia].
Defined.

(** Closing day 25 and a purchase on 26 January 2024: the form offers
    February, March and April. *)
Lemma invoice_options_consecutive_witness :
  invoiceOptions expenseForm [card 25 5] =
    [mkDate 2024 1 1 0; mkDate 2024 2 1 0; mkDate 2024 3 1 0] /\
  startInvoiceDate (Some (mkDate 2024 1 1 0)) (mkDate 2024 0 26 0) (card 25 5) =
    startInvoiceDate None (mkDate 2024 0 26 0) (card 25 5).
Proof.
  apply (invoice_options_consecutive expenseForm [card 25 5] (card 25 5)
           (mkDate 2024 0 26 0));
    [reflexivity | discriminate | reflexivity | reflexivity |].
  unfold valid, daysInMonth; simpl; lia.
Defined.

(** The sample form submits a card expense, which stays on the card. *)
Lemma submitted_card_purchase_stays_on_card_witness :
  fd_type expenseRequest = Some EXPENSE /\
  truthyString (fd_cardId expenseRequest) = true /\
  Forall (fun t => paymentMethod t = CREDIT_CARD)
         (fst (transactionsToAdd ids None noon expenseRequest
                 (ledger (card 25 5)) 0%nat)).
Proof.
  apply (submitted_card_purchase_stays_on_card ids None noon expenseForm
           expenseRequest (ledger (card 25 5)) 0%nat);
    reflexivity.
Defined.

(** After the card of the sample ledger is deleted, its record stays and
    a new purchase on it is dropped. *)
Lemma deleted_card_drops_purchases_witness :
  transactions (deleteCard "c1" twoRecords) = transactions twoRecords /\
  findCard (cards (deleteCard "c1" twoRecords)) "c1" = None /\
  handleSaveTransaction ids None noon
    (onCard (mkDate 2024 0 26 0) 3 true 900%Q) (deleteCard "c1" twoRecords)
    0%nat
  = (deleteCard "c1" twoRecords, 0%nat).
Proof.
  apply (deleted_card_drops_purchases ids None noon
           (onCard (mkDate 2024 0 26 0) 3 true 900%Q) twoRecords 0%nat
           "c1"%string);
    [reflexivity | reflexivity | discriminate].
Defined.

(** The sample ledger survives a save and a load. *)
Lemma load_after_save_witness :
  loadData (Document (saveData twoRecords)) = Some twoRecords.
Proof.
  apply (load_after_save twoRecords).
  - discriminate.
  - repeat constructor; discriminate.
Defined.

(** Filtering the sample ledger on pending records of January. *)
Lemma filtered_list_within_month_witness :
  In (record "a" PENDING CASH_DEBIT (mkDate 2024 0 10 0) 40%Q)
     (currentMonthTransactions (transactions twoRecords) (mkDate 2024 0 1 0)) /\
  status (record "a" PENDING CASH_DEBIT (mkDate 2024 0 10 0) 40%Q) = PENDING.
Proof.
  destruct (filtered_list_within_month (transactions twoRecords)
              {| filterMonth := mkDate 2024 0 1 0; filterType := None;
                 filterStatus := Some PENDING; filterCategory := "ALL";
                 filterCard := "ALL" |}
              (record "a" PENDING CASH_DEBIT (mkDate 2024 0 10 0) 40%Q))
    as (Hin & _ & Hstatus & _).
  - left. reflexivity.
  - split; [exact Hin|]. now apply Hstatus.
Defined.

(** A receipt showing the digits 34 is matched to the card ending 1234. *)
Lemma receipt_match_is_sound_witness :
  exists c digits own pre,
    In c [card 25 5; cardWithDigits] /\ card_id c = "c2"%string /\
    Some "34"%string = Some digits /\ digits <> ""%string /\
    last4Digits c = Some own /\ own <> ""%string /\
    own = (pre ++ digits)%string /\
    findCard [card 25 5; cardWithDigits] "c2" <> None.
Proof.
  apply (receipt_match_is_sound [card 25 5; cardWithDigits]
           (Some "34"%string) "c2"%string).
  reflexivity.
Defined.

(** The card of the sample ledger has no stored digits. *)
Lemma receipt_match_needs_stored_digits_witness :
  matchedCardId [card 25 5] (Some "1234"%string) = None.
Proof.
  apply (receipt_match_needs_stored_digits [card 25 5] (Some "1234"%string)).
  repeat constructor.
Defined.

End MoreExamples.
